(** * Pagination, search and rendering controller of the blog page

    A shallow embedding of [blog/static/blog/index.js].  The script is a
    single-threaded event-driven program: global variables, a DOM it
    mutates, [fetch] promises and [setTimeout] callbacks.  It is modelled
    as explicit state passing over a record [State] holding the globals,
    the part of the DOM the script touches, the fetches still awaiting an
    answer and the armed timers; every handler of the script is a function
    [State -> State] and the browser's event loop is [step]/[run].

    Modelling conventions
    - JS strings are [string]s read as UTF-8 bytes; [trim], [toLowerCase]
      and [toUpperCase] act on the ASCII range and leave other bytes alone.
    - JS numbers that the script computes with are integers, kept in [Z].
    - a JS value whose type the script tests at run time is a [jsval].
    - text produced through the browser's HTML parser ([stripHtmlTags]),
      tag chips, filter-pill highlighting, console output and
      [window.scrollTo] are presentation only and are left out. *)

From Stdlib Require Import ZArith List String Ascii Bool Lia DecimalString.
Import ListNotations.

Local Open Scope string_scope.
Local Open Scope list_scope.
Local Open Scope Z_scope.

(** ** JavaScript values and strings *)

Module JS.

(** The values the script can meet where it tests types or truthiness.
    [JNonInt] is a number that is not an integer ([NaN], an infinity or
    a fraction) with its [String()] rendering; [JObj] is any object,
    with what its [toString] yields ([None] when it throws). *)
Inductive jsval : Type :=
| JUndefined
| JNull
| JBool (b : bool)
| JInt (z : Z)
| JNonInt (nan : bool) (shown : string)
| JStr (s : string)
| JObj (shown : option string).

Definition truthy (v : jsval) : bool :=
  match v with
  | JUndefined | JNull => false
  | JBool b => b
  | JInt z => negb (z =? 0)
  | JNonInt nan _ => negb nan
  | JStr s => negb (String.eqb s "")
  | JObj _ => true
  end.

(** [a || b] *)
Definition orElse (a b : jsval) : jsval := if truthy a then a else b.

(** Decimal rendering of an integer, as [String(n)] and template
    literals give it (below 1e21 in absolute value). *)
Definition show_int (z : Z) : string := NilZero.string_of_int (Z.to_int z).

Definition code (c : ascii) : nat := nat_of_ascii c.

Definition in_range (lo hi n : nat) : bool := (lo <=? n)%nat && (n <=? hi)%nat.

(** White space stripped by [String.prototype.trim]: TAB, LF, VT, FF, CR, SP. *)
Definition is_white_space (c : ascii) : bool :=
  in_range 9 13 (code c) || (code c =? 32)%nat.

Fixpoint trimStart (s : string) : string :=
  match s with
  | EmptyString => EmptyString
  | String c r => if is_white_space c then trimStart r else s
  end.

Fixpoint trimEnd (s : string) : string :=
  match s with
  | EmptyString => EmptyString
  | String c r =>
      match trimEnd r with
      | EmptyString => if is_white_space c then EmptyString else String c EmptyString
      | r' => String c r'
      end
  end.

Definition trim (s : string) : string := trimEnd (trimStart s).

Definition lower_char (c : ascii) : ascii :=
  if in_range 65 90 (code c) then ascii_of_nat (code c + 32) else c.

Definition upper_char (c : ascii) : ascii :=
  if in_range 97 122 (code c) then ascii_of_nat (code c - 32) else c.

Fixpoint toLowerCase (s : string) : string :=
  match s with
  | EmptyString => EmptyString
  | String c r => String (lower_char c) (toLowerCase r)
  end.

Fixpoint toUpperCase (s : string) : string :=
  match s with
  | EmptyString => EmptyString
  | String c r => String (upper_char c) (toUpperCase r)
  end.

(** [s.charAt(0)] and [s.slice(1)] *)
Definition charAt0 (s : string) : string :=
  match s with
  | EmptyString => EmptyString
  | String c _ => String c EmptyString
  end.

Definition slice1 (s : string) : string :=
  match s with
  | EmptyString => EmptyString
  | String _ r => r
  end.

(** [s.split(sep)] for a one-character separator: never empty. *)
Fixpoint split (sep : ascii) (s : string) : list string :=
  match s with
  | EmptyString => [EmptyString]
  | String c r =>
      if Ascii.eqb c sep then EmptyString :: split sep r
      else match split sep r with
           | h :: t => String c h :: t
           | [] => [String c EmptyString]
           end
  end.

(** [encodeURIComponent]: letters, digits and [- _ . ! ~ * ' ( )] stay,
    every other byte becomes [%XX]. *)
Definition unreserved (c : ascii) : bool :=
  let n := code c in
  in_range 65 90 n || in_range 97 122 n || in_range 48 57 n
  || existsb (Nat.eqb n) [45; 95; 46; 33; 126; 42; 39; 40; 41]%nat.

Definition hex_digit (n : nat) : ascii :=
  if (n <? 10)%nat then ascii_of_nat (48 + n) else ascii_of_nat (55 + n).

Fixpoint encodeURIComponent (s : string) : string :=
  match s with
  | EmptyString => EmptyString
  | String c r =>
      if unreserved c then String c (encodeURIComponent r)
      else String "%" (String (hex_digit (code c / 16))
                         (String (hex_digit (code c mod 16)) (encodeURIComponent r)))
  end.

(** The double quote, for template literals that contain one. *)
Definition dquote : string := String (ascii_of_nat 34) EmptyString.

End JS.

Import JS.

(** ** Post records and category labels *)

(** A post record of the server's JSON.  Every field may be missing or of
    any type. *)
Record Post : Type := mkPost {
  title : jsval;
  content : jsval;
  author : jsval;
  pub_date : jsval;
  url : jsval;
  tags : jsval;
  category : jsval;
  thumbnail : jsval;
  thumbnail_small : jsval;
  image : jsval
}.

(** [v && typeof v === 'string' && v.trim()], as the string it leaves
    ([None] when the test fails). *)
Definition nonblank_string (v : jsval) : option string :=
  match v with
  | JStr s => if truthy (JStr s) && truthy (JStr (trim s)) then Some (trim s) else None
  | _ => None
  end.

(** [getPostCategory(postData)]; [None] is a falsy [postData].  Nothing in
    the body can throw, so the [catch] branch is dead. *)
Definition getPostCategory (postData : option Post) : string :=
  match postData with
  | None => "post"
  | Some p =>
      match nonblank_string (category p) with
      | Some c => c
      | None =>
          match tags p with
          | JStr t =>
              if truthy (JStr t) && truthy (JStr (trim t)) then
                let firstTag := trim (hd EmptyString (split "," t)) in
                if truthy (JStr firstTag) then firstTag else "post"
              else "post"
          | _ => "post"
          end
      end
  end.

(** What [getCategoryDisplayText] returns: a string, or, because
    [displayNames] is a plain object literal, a member inherited from
    [Object.prototype] when the lower-cased category names one. *)
Inductive DisplayText : Type :=
| Text (s : string)
| Inherited (name : string).

(** The own properties of the [displayNames] object literal. *)
Definition displayNames_own : list (string * string) :=
  [("tech", "Tech"); ("thoughts", "Thoughts"); ("stories", "Stories");
   ("career", "Career"); ("project", "Project"); ("post", "Post")].

(** The names on [Object.prototype] that survive lower-casing; the others
    ([toString], [valueOf], [hasOwnProperty], ...) hold a capital. *)
Definition object_prototype : list string := ["constructor"; "__proto__"].

Fixpoint own_property (key : string) (o : list (string * string)) : option string :=
  match o with
  | [] => None
  | (k, v) :: rest => if String.eqb key k then Some v else own_property key rest
  end.

(** [displayNames[key]]: own properties first, then the prototype. *)
Definition displayNames (key : string) : option DisplayText :=
  match own_property key displayNames_own with
  | Some v => Some (Text v)
  | None =>
      if existsb (String.eqb key) object_prototype then Some (Inherited key) else None
  end.

Definition capitalize (s : string) : string :=
  (toUpperCase (charAt0 s) ++ toLowerCase (slice1 s))%string.

Definition getCategoryDisplayText (cat : jsval) : DisplayText :=
  match cat with
  | JStr s =>
      if truthy (JStr s) then
        match displayNames (toLowerCase s) with
        | Some d => d
        | None => Text (capitalize s)
        end
      else Text "Post"
  | _ => Text "Post"
  end.

(** ** The DOM the script binds to *)

(** The image area of a card: an [<img>] with its [src], or the text
    placeholder with the extra CSS class put on it (regular cards only). *)
Inductive CardImage : Type :=
| Img (src : jsval)
| Placeholder (cls : option string) (text : DisplayText).

(** Element children of [#post-list]. *)
Inductive Node : Type :=
| RegularCard (p : Post) (img : CardImage)
| ErrorPost
| GhostCard
| ErrorBanner (id : nat) (message : string)
| Loading (text : string)
| NoResults
| SearchError.

(** Element children of [#featured]. *)
Inductive FeaturedNode : Type :=
| FeaturedCard (p : Post) (index : Z) (img : CardImage).

(** Measurements the script reads; the browser may change them between
    any two tasks. *)
Record Layout : Type := mkLayout {
  offsetWidth : Z;        (* postList.offsetWidth *)
  scrollHeight : Z;       (* document.documentElement.scrollHeight *)
  innerHeight : Z;        (* window.innerHeight *)
  scrollY : Z;            (* window.scrollY *)
  bodyOffsetHeight : Z    (* document.body.offsetHeight *)
}.

(** [#search-status]: its text and whether it is displayed. *)
Record StatusLine : Type := mkStatus {
  status_text : string;
  status_shown : bool
}.

(** An element the page may lack is an [option]. *)
Record Dom : Type := mkDom {
  featured : option (list FeaturedNode);
  postList : option (list Node);
  searchInput : option string;
  searchStatus : option StatusLine;
  sectionTitle : option string;
  searchActive : bool;    (* body.classList has 'search-active' *)
  layout : Layout
}.

(** ** Promises and timers *)

(** A fetch whose promise chain is suspended.  [loadImages] awaits the
    response and then its JSON body and closes over nothing; the chain of
    [loadSearchResults] closes over its normalised arguments. *)
Inductive Pending : Type :=
| LFetch
| LJson
| SFetch (query : string) (page : Z)
| SJson (query : string) (page : Z).

(** How a pending promise settles. *)
Inductive PageItems : Type :=
| BPArray (posts : list (option Post))   (* an array; a falsy entry is [None] *)
| BPOther (truthy : bool).               (* anything else, with its truthiness *)

Record PageData : Type := mkPage {
  blog_posts : PageItems;
  has_next : bool;          (* truthiness of [data.has_next] *)
  total_results : Z         (* [Number(data.total_results || 0) || 0] *)
}.

(** The parsed body: [null], or a value whose properties can be read (a
    primitive reads as an object without properties). *)
Inductive JsonData : Type :=
| JsonNull
| JsonObject (data : PageData).

Inductive Outcome : Type :=
| FetchRejected                 (* network failure *)
| FetchResponse (status : Z)    (* headers arrived *)
| JsonRejected                  (* the body is not JSON *)
| JsonValue (d : JsonData).

Definition response_ok (status : Z) : bool := (200 <=? status) && (status <=? 299).

Inductive Callback : Type :=
| CheckIfMoreContentNeeded
| CheckInner
| RemoveBanner (id : nat)
| ScrollCheck
| ResizeFill
| SearchInputFire.

(** [setTimeout(cb, ms)] *)
Definition Timer : Type := (Z * Callback)%type.

(** ** Program state *)

Record State : Type := mkState {
  page_num : Z;
  isLoading : bool;
  currentSearchQuery : string;
  currentTag : string;
  isSearchMode : bool;
  hasNext : option bool;        (* window.hasNext, [None] while undefined *)
  currentPage : option Z;       (* window.currentPage *)
  scrollTimeout : bool;         (* window.scrollTimeout is set *)
  dom : Dom;
  pending : list Pending;
  timers : list Timer;
  requests : list string;       (* every URL handed to [fetch], oldest first *)
  nextId : nat                  (* identity of the next element created *)
}.

(** Field updates ([s.f = v]). *)

Definition set_page_num v (s : State) : State :=
  mkState
    v (isLoading s) (currentSearchQuery s) (currentTag s) (isSearchMode s) (hasNext s)
    (currentPage s) (scrollTimeout s) (dom s) (pending s) (timers s) (requests s)
    (nextId s).

Definition set_isLoading v (s : State) : State :=
  mkState
    (page_num s) v (currentSearchQuery s) (currentTag s) (isSearchMode s) (hasNext s)
    (currentPage s) (scrollTimeout s) (dom s) (pending s) (timers s) (requests s)
    (nextId s).

Definition set_currentSearchQuery v (s : State) : State :=
  mkState
    (page_num s) (isLoading s) v (currentTag s) (isSearchMode s) (hasNext s)
    (currentPage s) (scrollTimeout s) (dom s) (pending s) (timers s) (requests s)
    (nextId s).

Definition set_currentTag v (s : State) : State :=
  mkState
    (page_num s) (isLoading s) (currentSearchQuery s) v (isSearchMode s) (hasNext s)
    (currentPage s) (scrollTimeout s) (dom s) (pending s) (timers s) (requests s)
    (nextId s).

Definition set_isSearchMode v (s : State) : State :=
  mkState
    (page_num s) (isLoading s) (currentSearchQuery s) (currentTag s) v (hasNext s)
    (currentPage s) (scrollTimeout s) (dom s) (pending s) (timers s) (requests s)
    (nextId s).

Definition set_hasNext v (s : State) : State :=
  mkState
    (page_num s) (isLoading s) (currentSearchQuery s) (currentTag s) (isSearchMode s) v
    (currentPage s) (scrollTimeout s) (dom s) (pending s) (timers s) (requests s)
    (nextId s).

Definition set_currentPage v (s : State) : State :=
  mkState
    (page_num s) (isLoading s) (currentSearchQuery s) (currentTag s) (isSearchMode s)
    (hasNext s) v (scrollTimeout s) (dom s) (pending s) (timers s) (requests s)
    (nextId s).

Definition set_scrollTimeout v (s : State) : State :=
  mkState
    (page_num s) (isLoading s) (currentSearchQuery s) (currentTag s) (isSearchMode s)
    (hasNext s) (currentPage s) v (dom s) (pending s) (timers s) (requests s)
    (nextId s).

Definition set_dom v (s : State) : State :=
  mkState
    (page_num s) (isLoading s) (currentSearchQuery s) (currentTag s) (isSearchMode s)
    (hasNext s) (currentPage s) (scrollTimeout s) v (pending s) (timers s) (requests s)
    (nextId s).

Definition set_pending v (s : State) : State :=
  mkState
    (page_num s) (isLoading s) (currentSearchQuery s) (currentTag s) (isSearchMode s)
    (hasNext s) (currentPage s) (scrollTimeout s) (dom s) v (timers s) (requests s)
    (nextId s).

Definition set_timers v (s : State) : State :=
  mkState
    (page_num s) (isLoading s) (currentSearchQuery s) (currentTag s) (isSearchMode s)
    (hasNext s) (currentPage s) (scrollTimeout s) (dom s) (pending s) v (requests s)
    (nextId s).

Definition set_requests v (s : State) : State :=
  mkState
    (page_num s) (isLoading s) (currentSearchQuery s) (currentTag s) (isSearchMode s)
    (hasNext s) (currentPage s) (scrollTimeout s) (dom s) (pending s) (timers s) v
    (nextId s).

Definition set_nextId v (s : State) : State :=
  mkState
    (page_num s) (isLoading s) (currentSearchQuery s) (currentTag s) (isSearchMode s)
    (hasNext s) (currentPage s) (scrollTimeout s) (dom s) (pending s) (timers s)
    (requests s) v.

Definition set_featured v (s : State) : State :=
  set_dom (mkDom
      v (postList (dom s)) (searchInput (dom s)) (searchStatus (dom s))
      (sectionTitle (dom s)) (searchActive (dom s)) (layout (dom s))) s.

Definition set_postList v (s : State) : State :=
  set_dom (mkDom
      (featured (dom s)) v (searchInput (dom s)) (searchStatus (dom s))
      (sectionTitle (dom s)) (searchActive (dom s)) (layout (dom s))) s.

Definition set_searchInput v (s : State) : State :=
  set_dom (mkDom
      (featured (dom s)) (postList (dom s)) v (searchStatus (dom s))
      (sectionTitle (dom s)) (searchActive (dom s)) (layout (dom s))) s.

Definition set_searchStatus v (s : State) : State :=
  set_dom (mkDom
      (featured (dom s)) (postList (dom s)) (searchInput (dom s)) v
      (sectionTitle (dom s)) (searchActive (dom s)) (layout (dom s))) s.

Definition set_sectionTitle v (s : State) : State :=
  set_dom (mkDom
      (featured (dom s)) (postList (dom s)) (searchInput (dom s))
      (searchStatus (dom s)) v (searchActive (dom s)) (layout (dom s))) s.

Definition set_searchActive v (s : State) : State :=
  set_dom (mkDom
      (featured (dom s)) (postList (dom s)) (searchInput (dom s))
      (searchStatus (dom s)) (sectionTitle (dom s)) v (layout (dom s))) s.

Definition set_layout v (s : State) : State :=
  set_dom (mkDom
      (featured (dom s)) (postList (dom s)) (searchInput (dom s))
      (searchStatus (dom s)) (sectionTitle (dom s)) (searchActive (dom s)) v) s.

(** ** Error shim and DOM helpers *)

Definition setTimeout (ms : Z) (cb : Callback) (s : State) : State :=
  set_timers (timers s ++ [(ms, cb)]) s.

(** [fetch(url, ...)]: the request leaves and its promise is pending. *)
Definition fetch (u : string) (k : Pending) (s : State) : State :=
  set_requests (requests s ++ [u]) (set_pending (pending s ++ [k]) s).

(** [postList.appendChild(n)] behind the script's [if (postList)]. *)
Definition appendChild (n : Node) (s : State) : State :=
  match postList (dom s) with
  | Some kids => set_postList (Some (kids ++ [n])) s
  | None => s
  end.

(** [showErrorMessage(message)]; the script never passes a container. *)
Definition showErrorMessage (message : string) (s : State) : State :=
  let id := nextId s in
  let s1 := set_nextId (S id) s in
  let s2 := appendChild (ErrorBanner id message) s1 in
  setTimeout 5000 (RemoveBanner id) s2.

Definition is_banner (id : nat) (n : Node) : bool :=
  match n with
  | ErrorBanner i _ => Nat.eqb i id
  | _ => false
  end.

(** The 5 s callback of [showErrorMessage]: the banner goes if it is still
    attached. *)
Definition removeBanner (id : nat) (s : State) : State :=
  match postList (dom s) with
  | Some kids => set_postList (Some (filter (fun n => negb (is_banner id n)) kids)) s
  | None => s
  end.

(** ** Ghost-row filler *)

Definition is_ghost (n : Node) : bool :=
  match n with
  | GhostCard => true
  | _ => false
  end.

Definition remove_ghosts (kids : list Node) : list Node :=
  filter (fun n => negb (is_ghost n)) kids.

(** [a % b] on non-negative integers; [None] is [NaN]. *)
Definition js_rem (a b : Z) : option Z :=
  if b =? 0 then None else Some (Z.rem a b).

Definition addGhostCards (s : State) : State :=
  match postList (dom s) with
  | None => s
  | Some kids =>
      (* read before the old ghosts are removed *)
      let postsCount := Z.of_nat (List.length kids) in
      let s1 := set_postList (Some (remove_ghosts kids)) s in
      let containerWidth := offsetWidth (layout (dom s1)) in
      if containerWidth <=? 0 then s1
      else
        let cardsPerRow := containerWidth / 350 in
        match js_rem postsCount cardsPerRow with
        | Some remainder =>
            if negb (remainder =? 0) && (cardsPerRow >? 1) then
              let ghostsNeeded := cardsPerRow - remainder in
              set_postList
                (Some (remove_ghosts kids ++ repeat GhostCard (Z.to_nat ghostsNeeded))) s1
            else s1
        | None => s1   (* NaN !== 0, but cardsPerRow is 0 *)
        end
  end.

(** ** Post renderer *)

(** [classList.add(token)] throws on a token holding ASCII white space. *)
Definition token_space (c : ascii) : bool :=
  existsb (Nat.eqb (code c)) [9; 10; 12; 13; 32]%nat.

Fixpoint has_token_space (s : string) : bool :=
  match s with
  | EmptyString => false
  | String c r => token_space c || has_token_space r
  end.

(** Converting [v] to a string throws: an object whose [toString]
    throws.  (No value that [JSON.parse] builds is one.) *)
Definition string_throws (v : jsval) : bool :=
  match v with
  | JObj None => true
  | _ => false
  end.

(** The thumbnail [try] block of [createRegularPost].  Setting [img.src],
    or [stripHtmlTags(title)] for [img.alt], may throw, and so does
    [classList.add] on a category with white space inside: the [catch]
    block then puts the plain "Post" placeholder. *)
Definition regular_image (p : Post) : CardImage :=
  let src := orElse (orElse (thumbnail_small p) (thumbnail p)) (image p) in
  if truthy src then
    if string_throws src || string_throws (title p)
    then Placeholder (Some "post") (Text "Post")
    else Img src
  else
    let category := getPostCategory (Some p) in
    let displayText := getCategoryDisplayText (JStr category) in
    if has_token_space (toLowerCase category)
    then Placeholder (Some "post") (Text "Post")
    else Placeholder (Some (toLowerCase category)) displayText.

Definition createRegularPost (postData : option Post) : Node :=
  match postData with
  | None => ErrorPost
  | Some p => RegularCard p (regular_image p)
  end.

(** The image [try] block of [createFeaturedPost]; its [catch] block
    falls back to the category text. *)
Definition featured_image (p : Post) (index : Z) : CardImage :=
  let fallback := Placeholder None (getCategoryDisplayText (JStr (getPostCategory (Some p)))) in
  if truthy (orElse (thumbnail p) (image p)) then
    let src := if index =? 0 then orElse (thumbnail p) (image p)
               else orElse (orElse (thumbnail_small p) (thumbnail p)) (image p) in
    if string_throws src || string_throws (title p) then fallback else Img src
  else fallback.

Definition createFeaturedPost (postData : option Post) (index : Z) (s : State) : State :=
  match postData, featured (dom s) with
  | Some p, Some kids =>
      set_featured (Some (kids ++ [FeaturedCard p index (featured_image p index)])) s
  | _, _ => showErrorMessage "Error creating featured post" s
  end.

(** [posts.forEach((post, index) => createFeaturedPost(post, index))] *)
Fixpoint forEach_featured (posts : list (option Post)) (index : Z) (s : State) : State :=
  match posts with
  | [] => s
  | post :: rest => forEach_featured rest (index + 1) (createFeaturedPost post index s)
  end.

(** [posts.forEach(post => postList.appendChild(createRegularPost(post)))] *)
Definition forEach_regular (posts : list (option Post)) (s : State) : State :=
  fold_left (fun s post => appendChild (createRegularPost post) s) posts s.

(** ** Pagination controller *)

(** [b && Array.isArray(b) && b.length > 0] *)
Definition nonempty_array (b : PageItems) : bool :=
  match b with
  | BPArray (_ :: _) => true
  | _ => false
  end.

Definition items (b : PageItems) : list (option Post) :=
  match b with
  | BPArray l => l
  | BPOther _ => []
  end.

Definition render_listing (data : PageData) (s : State) : State :=
  let posts := items (blog_posts data) in
  if (page_num s =? 1) && nonempty_array (blog_posts data) then
    match featured (dom s) with
    | Some _ =>
        let s1 := set_featured (Some []) s in
        let s2 := forEach_featured (firstn 3 posts) 0 s1 in
        if Z.of_nat (List.length posts) >? 3 then
          match postList (dom s2) with
          | Some _ => addGhostCards (forEach_regular (skipn 3 posts) s2)
          | None => s2
          end
        else s2
    | None => s
    end
  else if (page_num s >? 1) && nonempty_array (blog_posts data) then
    match postList (dom s) with
    | Some _ => addGhostCards (forEach_regular posts s)
    | None => s
    end
  else s.

(** The [finally] block of [loadImages]. *)
Definition loadImages_finally (s : State) : State :=
  setTimeout 100 CheckIfMoreContentNeeded (set_isLoading false s).

(** The [catch] block of [loadImages]. *)
Definition loadImages_catch (s : State) : State :=
  showErrorMessage "Error loading blog posts. Please try refreshing the page." s.

(** [loadImages()] up to its first [await].  The guard's [return] sits
    inside the [try], so the [finally] block runs on it too. *)
Definition loadImages (s : State) : State :=
  if isLoading s then loadImages_finally s
  else
    let s1 := set_isLoading true s in
    fetch ("?page=" ++ show_int (page_num s1))%string LFetch s1.

(** [await fetch(...)] rejects. *)
Definition loadImages_rejected (s : State) : State :=
  loadImages_finally (loadImages_catch s).

(** [await fetch(...)] resolves: the status test, then [await response.json()]. *)
Definition loadImages_response (status : Z) (s : State) : State :=
  if response_ok status then set_pending (pending s ++ [LJson]) s
  else loadImages_finally (loadImages_catch s).

(** [await response.json()] resolves: the rest of the [try] block.
    Reading [has_next] of [null] throws. *)
Definition loadImages_data (d : JsonData) (s : State) : State :=
  match d with
  | JsonNull => loadImages_finally (loadImages_catch s)
  | JsonObject data =>
      if negb (has_next data) && (page_num s >? 1)
      then loadImages_finally (set_isLoading false s)
      else
        let s1 := render_listing data s in
        loadImages_finally (set_page_num (page_num s1 + 1) s1)
  end.

(** ** Search controller *)

(** How a [try] block ends. *)
Inductive Completion : Type :=
| Normal (s : State)
| Thrown (s : State).

Definition completed (c : Completion) : State :=
  match c with
  | Normal s | Thrown s => s
  end.

(** [String(v)]; [None] when the object's [toString] throws. *)
Definition to_String (v : jsval) : option string :=
  match v with
  | JUndefined => Some "undefined"
  | JNull => Some "null"
  | JBool b => Some (if b then "true" else "false")
  | JInt z => Some (show_int z)
  | JNonInt _ shown => Some shown
  | JStr s => Some s
  | JObj shown => shown
  end.

(** [if (typeof query !== 'string') query = String(query || '')] *)
Definition coerce_query (query : jsval) : option string :=
  match query with
  | JStr s => Some s
  | _ => to_String (orElse query (JStr ""))
  end.

(** [if (!Number.isInteger(page) || page < 1) page = 1] *)
Definition normalize_page (page : jsval) : Z :=
  match page with
  | JInt z => if z <? 1 then 1 else z
  | _ => 1
  end.

Definition search_url (query : string) (page : Z) : string :=
  ("/blog/search/?page=" ++ show_int page
   ++ (if truthy (JStr query) then "&search=" ++ encodeURIComponent query else ""))%string.

(** [showSearchError()] *)
Definition showSearchError (s : State) : State :=
  match postList (dom s) with
  | Some _ => set_postList (Some [SearchError]) s
  | None => s
  end.

(** The outer [try] block of [loadSearchResults(query, page)], up to the
    point where the promise chain is set up. *)
Definition loadSearchResults_try (query page : jsval) (s : State) : Completion :=
  match coerce_query query with
  | None => Thrown s
  | Some q =>
      let p := normalize_page page in
      Normal (fetch (search_url q p) (SFetch q p) s)
  end.

(** The whole call, with its [catch] block. *)
Definition loadSearchResults_run (query page : jsval) (s : State) : Completion :=
  match loadSearchResults_try query page s with
  | Normal s' => Normal s'
  | Thrown s' => Normal (set_isLoading false (showSearchError s'))
  end.

Definition loadSearchResults (query page : jsval) (s : State) : State :=
  completed (loadSearchResults_run query page s).

(** The [.catch] of the promise chain, and the inner [catch]. *)
Definition search_failed (s : State) : State :=
  set_isLoading false (showSearchError s).

(** First [.then]: the status test, then [response.json()]. *)
Definition search_response (status : Z) (query : string) (page : Z) (s : State) : State :=
  if response_ok status then set_pending (pending s ++ [SJson query page]) s
  else search_failed s.

(** [data.blog_posts || []] *)
Definition items_or_empty (b : PageItems) : PageItems :=
  match b with
  | BPOther false => BPArray []
  | _ => b
  end.

Definition displaySearchResults (posts : PageItems) (s : State) : State :=
  match postList (dom s) with
  | None => showSearchError s    (* throws, and its catch finds no container either *)
  | Some _ =>
      let s1 := set_postList (Some []) s in
      if nonempty_array posts then addGhostCards (forEach_regular (items posts) s1)
      else set_postList (Some [NoResults]) s1
  end.

Definition appendSearchResults (posts : PageItems) (s : State) : State :=
  match postList (dom s) with
  | None => s
  | Some _ =>
      match posts with
      | BPArray l => addGhostCards (forEach_regular l s)
      | BPOther _ => s
      end
  end.

Definition updateSearchStatus (totalResults : Z) (query : string) (s : State) : State :=
  match searchStatus (dom s) with
  | Some st =>
      if truthy (JStr query) then
        let count := totalResults in
        let statusText :=
          (show_int count ++ " result" ++ (if Z.eqb count 1 then "" else "s"))%string in
        set_searchStatus (Some (mkStatus statusText true)) s
      else set_searchStatus (Some (mkStatus (status_text st) false)) s
  | None => s
  end.

(** Second [.then]: the response handler.  [query] and [page] are the
    values the call closed over. *)
Definition search_data (d : JsonData) (query : string) (page : Z) (s : State) : State :=
  match d with
  | JsonNull => search_failed s
  | JsonObject data =>
      let posts := items_or_empty (blog_posts data) in
      let s1 := if page =? 1 then displaySearchResults posts s
                else appendSearchResults posts s in
      let s2 := set_currentPage (Some page) (set_hasNext (Some (has_next data)) s1) in
      let s3 := updateSearchStatus (total_results data) query s2 in
      setTimeout 100 CheckIfMoreContentNeeded (set_isLoading false s3)
  end.

(** [if (featured) featured.innerHTML = ''; if (postList) postList.innerHTML = ''] *)
Definition clear_containers (s : State) : State :=
  let s1 := match featured (dom s) with
            | Some _ => set_featured (Some []) s
            | None => s
            end in
  match postList (dom s1) with
  | Some _ => set_postList (Some []) s1
  | None => s1
  end.

Definition set_title (t : string) (s : State) : State :=
  match sectionTitle (dom s) with
  | Some _ => set_sectionTitle (Some t) s
  | None => s
  end.

(** [performSearch(query)]; every caller passes a string. *)
Definition performSearch (query : string) (s : State) : State :=
  let s1 := set_currentSearchQuery query s in
  let s2 := set_currentTag (currentSearchQuery s1) s1 in
  let s3 := set_isSearchMode (Z.of_nat (String.length (currentSearchQuery s2)) >? 0) s2 in
  if isSearchMode s3 then
    let s4 := set_searchActive true s3 in
    let s5 := set_title
                ("Search Results for " ++ dquote ++ currentSearchQuery s4 ++ dquote)%string s4 in
    match postList (dom s5) with
    | Some _ =>
        loadSearchResults (JStr (currentSearchQuery s5)) (JInt 1)
          (set_postList (Some [Loading "🔍 Searching..."]) s5)
    | None => s5
    end
  else
    let s4 := set_searchActive false s3 in
    let s5 := set_page_num 1 s4 in
    loadImages (clear_containers s5).

(** [filterByTag(tagName)] for a string argument. *)
Definition filterByTag (tagName : string) (s : State) : State :=
  if negb (truthy (JStr tagName)) then s
  else
    let s1 := match searchInput (dom s) with
              | Some _ => set_searchInput (Some tagName) s
              | None => s
              end in
    let s2 := set_isSearchMode true (set_currentTag tagName (set_currentSearchQuery tagName s1)) in
    let s3 := set_searchActive true s2 in
    let s4 := set_title ("Posts tagged " ++ dquote ++ tagName ++ dquote)%string s3 in
    match postList (dom s4) with
    | Some _ =>
        loadSearchResults (JStr tagName) (JInt 1)
          (set_postList (Some [Loading "🔍 Searching by tag..."]) s4)
    | None => s4
    end.

Definition clearSearch (s : State) : State :=
  let s1 := match searchInput (dom s) with
            | Some _ => set_searchInput (Some "") s
            | None => s
            end in
  let s2 := match searchStatus (dom s1) with
            | Some st => set_searchStatus (Some (mkStatus (status_text st) false)) s1
            | None => s1
            end in
  let s3 := set_searchActive false s2 in
  let s4 := set_page_num 1 s3 in
  let s5 := set_currentSearchQuery "" s4 in
  let s6 := set_currentTag "" s5 in
  let s7 := set_isSearchMode false s6 in
  let s8 := set_hasNext (Some true) s7 in
  let s9 := set_currentPage (Some 1) s8 in
  let s10 := clear_containers s9 in
  let s11 := set_title "All Posts" s10 in
  loadImages s11.

(** ** Scroll and resize sentinel *)

(** [window.currentPage + 1]; [undefined + 1] is [NaN]. *)
Definition next_page (cp : option Z) : jsval :=
  match cp with
  | Some c => JInt (c + 1)
  | None => JNonInt true "NaN"
  end.

(** truthiness of [window.hasNext] *)
Definition has_more (s : State) : bool :=
  match hasNext s with
  | Some b => b
  | None => false
  end.

(** [checkIfMoreContentNeeded()] only arms the 500 ms timer. *)
Definition checkIfMoreContentNeeded (s : State) : State :=
  setTimeout 500 CheckInner s.

(** The 500 ms callback of [checkIfMoreContentNeeded]. *)
Definition check_inner (s : State) : State :=
  let documentHeight := scrollHeight (layout (dom s)) in
  let windowHeight := innerHeight (layout (dom s)) in
  if (documentHeight <=? windowHeight + 100) && has_more s && negb (isLoading s) then
    if isSearchMode s then
      let s1 := set_isLoading true s in
      loadSearchResults (JStr (currentSearchQuery s1)) (next_page (currentPage s1)) s1
    else loadImages s
  else s.

(** The scroll listener: one check per 100 ms. *)
Definition on_scroll (s : State) : State :=
  if scrollTimeout s then s
  else setTimeout 100 ScrollCheck (set_scrollTimeout true s).

Definition scroll_check (s : State) : State :=
  let s0 := set_scrollTimeout false s in
  let l := layout (dom s0) in
  if innerHeight l + scrollY l >=? bodyOffsetHeight l - 1000 then
    if isSearchMode s0 then
      if has_more s0 && negb (isLoading s0) then
        let s1 := set_isLoading true s0 in
        loadSearchResults (JStr (currentSearchQuery s1)) (next_page (currentPage s1)) s1
      else s0
    else
      if negb (isLoading s0) then loadImages s0 else s0
  else s0.

Definition callback_eqb (a b : Callback) : bool :=
  match a, b with
  | CheckIfMoreContentNeeded, CheckIfMoreContentNeeded => true
  | CheckInner, CheckInner => true
  | RemoveBanner i, RemoveBanner j => Nat.eqb i j
  | ScrollCheck, ScrollCheck => true
  | ResizeFill, ResizeFill => true
  | SearchInputFire, SearchInputFire => true
  | _, _ => false
  end.

(** [clearTimeout] of the timer that holds [cb], if it is still armed. *)
Definition clearTimeout (cb : Callback) (s : State) : State :=
  set_timers (filter (fun t => negb (callback_eqb (snd t) cb)) (timers s)) s.

(** The resize listener: 250 ms debounce, then the filler only. *)
Definition on_resize (s : State) : State :=
  setTimeout 250 ResizeFill (clearTimeout ResizeFill s).

(** ** Handlers installed by [initializeSearch] *)

Definition on_submit (s : State) : State :=
  let query := match searchInput (dom s) with
               | Some v => trim v
               | None => ""
               end in
  performSearch query s.

(** The user edits the search box to [v]: the 500 ms debounce restarts. *)
Definition on_input (v : string) (s : State) : State :=
  match searchInput (dom s) with
  | Some _ =>
      setTimeout 500 SearchInputFire (clearTimeout SearchInputFire (set_searchInput (Some v) s))
  | None => s
  end.

Definition search_input_fire (s : State) : State :=
  match searchInput (dom s) with
  | Some v =>
      let query := trim v in
      let n := Z.of_nat (String.length query) in
      if (n >=? 2) || (n =? 0) then performSearch query s else s
  | None => s
  end.

(** A filter pill whose [dataset.category || textContent.trim()] is [tagName]. *)
Definition on_pill (tagName : string) (s : State) : State :=
  if negb (truthy (JStr tagName)) || String.eqb tagName "All" then clearSearch s
  else filterByTag tagName s.

(** ** The event loop *)

Inductive Event : Type :=
| Scroll
| Resize
| Relayout (l : Layout)
| SubmitSearch
| InputSearch (v : string)
| ClickClear
| ClickPill (tagName : string)
| ClickTag (tagName : string)
| Fire (i : nat)
| Settle (i : nat) (o : Outcome).

Fixpoint remove_at {A : Type} (i : nat) (l : list A) : list A :=
  match l, i with
  | [], _ => []
  | _ :: r, O => r
  | x :: r, S j => x :: remove_at j r
  end.

Definition run_callback (cb : Callback) (s : State) : State :=
  match cb with
  | CheckIfMoreContentNeeded => checkIfMoreContentNeeded s
  | CheckInner => check_inner s
  | RemoveBanner id => removeBanner id s
  | ScrollCheck => scroll_check s
  | ResizeFill => addGhostCards s
  | SearchInputFire => search_input_fire s
  end.

(** The [i]-th armed timer expires. *)
Definition fire (i : nat) (s : State) : State :=
  match nth_error (timers s) i with
  | Some (_, cb) => run_callback cb (set_timers (remove_at i (timers s)) s)
  | None => s
  end.

(** The [i]-th pending promise settles and its continuation runs. *)
Definition settle (i : nat) (o : Outcome) (s : State) : State :=
  match nth_error (pending s) i with
  | None => s
  | Some k =>
      let s' := set_pending (remove_at i (pending s)) s in
      match k, o with
      | LFetch, FetchRejected => loadImages_rejected s'
      | LFetch, FetchResponse status => loadImages_response status s'
      | LJson, JsonRejected => loadImages_rejected s'
      | LJson, JsonValue d => loadImages_data d s'
      | SFetch _ _, FetchRejected => search_failed s'
      | SFetch q p, FetchResponse status => search_response status q p s'
      | SJson _ _, JsonRejected => search_failed s'
      | SJson q p, JsonValue d => search_data d q p s'
      | _, _ => s      (* not a way this promise can settle *)
      end
  end.

(** [supportsAjax = !!postList]: without [#post-list], [initializeSearch]
    installs no handler. *)
Definition supportsAjax (s : State) : bool :=
  match postList (dom s) with
  | Some _ => true
  | None => false
  end.

Definition step (e : Event) (s : State) : State :=
  match e with
  | Scroll => on_scroll s
  | Resize => on_resize s
  | Relayout l => set_layout l s
  | SubmitSearch => if supportsAjax s then on_submit s else s
  | InputSearch v => if supportsAjax s then on_input v s else s
  | ClickClear => if supportsAjax s then clearSearch s else s
  | ClickPill t => if supportsAjax s then on_pill t s else s
  | ClickTag t => filterByTag (trim t) s
  | Fire i => fire i s
  | Settle i o => settle i o s
  end.

Definition run (es : list Event) (s : State) : State :=
  fold_left (fun s e => step e s) es s.

(** The state the script starts from, and its top-level statements:
    [loadImages(); isLoading = false;]. *)
Definition initial (d : Dom) : State :=
  mkState 1 false "" "" false None None false d [] [] [] 0.

Definition boot (d : Dom) : State :=
  set_isLoading false (loadImages (initial d)).

(** ** Vocabulary of the statements *)

(** A string of white space only. *)
Fixpoint blank (s : string) : bool :=
  match s with
  | EmptyString => true
  | String c r => is_white_space c && blank r
  end.


(** The number of fillers [addGhostCards] appends to a container of width
    [w] in which it counted [n] children. *)
Definition ghostsNeeded (w n : Z) : Z :=
  if w <=? 0 then 0
  else
    let cardsPerRow := w / 350 in
    if (cardsPerRow >? 1) && negb (Z.rem n cardsPerRow =? 0)
    then cardsPerRow - Z.rem n cardsPerRow
    else 0.

(** The ways a listing fetch fails: [ListingFailure s s'] when the
    continuation of [loadImages], resumed in [s], ends in [s'] through its
    [catch] block. *)
Inductive ListingFailure (s : State) : State -> Prop :=
| fails_network : ListingFailure s (loadImages_rejected s)
| fails_status (status : Z) :
    response_ok status = false -> ListingFailure s (loadImages_response status s)
| fails_parse : ListingFailure s (loadImages_rejected s)
| fails_null : ListingFailure s (loadImages_data JsonNull s).

(** One idle call of [loadImages] answered with a 2xx response whose body
    is [data]. *)
Definition listing_round (data : PageData) (s : State) : State :=
  let k := List.length (pending s) in
  settle k (JsonValue (JsonObject data)) (settle k (FetchResponse 200) (loadImages s)).

Fixpoint listing_rounds (n : nat) (data : PageData) (s : State) : State :=
  match n with
  | O => s
  | S m => listing_rounds m data (listing_round data s)
  end.

(** The text of the banner of [loadImages], and the URL of listing page [n]. *)
Definition load_error : string :=
  "Error loading blog posts. Please try refreshing the page.".

Definition listing_url (n : Z) : string := ("?page=" ++ show_int n)%string.

(** The states the script can be in: those the event loop reaches from
    the start of the script on a page [d]. *)
Inductive reachable (d : Dom) : State -> Prop :=
| reach_boot : reachable d (boot d)
| reach_step (e : Event) (s : State) : reachable d s -> reachable d (step e s).

(** The paging cursors of a state: what the two streams will ask for. *)
Definition cursors (s : State) : Z * option bool * option Z * list Pending :=
  (page_num s, hasNext s, currentPage s, pending s).

Definition page_ok (k : Pending) : Prop :=
  match k with
  | SFetch _ p | SJson _ p => 1 <= p
  | LFetch | LJson => True
  end.

(** Page numbers start at 1, and once [window.hasNext] has been written
    [window.currentPage] holds a page number too. *)
Definition cursors_ok (s : State) : Prop :=
  1 <= page_num s
  /\ (hasNext s <> None -> exists c, currentPage s = Some c /\ 1 <= c)
  /\ Forall page_ok (pending s).

(** ** Sample pages *)

Module Sample.

Definition post (c t : jsval) : Post :=
  mkPost (JStr "A title") (JStr "Some text") (JStr "holly") (JStr "2025-01-01")
    (JStr "/blog/1/") t c JUndefined JUndefined JUndefined.

Definition rust : Post := post (JStr "tech") (JStr "rust, career").

(** A document taller than the window, scrolled close to its end, and
    one too short to scroll; three cards fit in a row. *)
Definition tall : Layout := mkLayout 1050 3000 800 1500 3000.

Definition short : Layout := mkLayout 1050 600 800 0 600.

(** A page with every element of the contract. *)
Definition page : Dom :=
  mkDom (Some []) (Some []) (Some "") (Some (mkStatus "" false)) (Some "All Posts")
    false tall.

Definition first_page : PageData := mkPage (BPArray [Some rust]) true 0.

Definition last_page : PageData := mkPage (BPArray [Some rust]) false 0.

Definition hits : PageData := mkPage (BPArray [Some rust]) false 1.

Definition more_hits : PageData := mkPage (BPArray [Some rust]) true 12.

(** The first listing page has been loaded, its two check timers have
    run, and the page is idle. *)
Definition loaded : State :=
  run [Settle 0 (FetchResponse 200); Settle 0 (JsonValue (JsonObject first_page));
       Fire 0; Fire 0]
    (boot page).

(** ... then a scroll has asked for page 2, which is still on its way. *)
Definition scrolled : State := run [Scroll; Fire 0] loaded.

(** ... and page 2 has come back with [has_next] false. *)
Definition exhausted : State :=
  run [Settle 0 (FetchResponse 200); Settle 0 (JsonValue (JsonObject last_page));
       Fire 0; Fire 0]
    scrolled.

(** The user has typed "rust", the debounced search has been sent, and
    the user has clicked the clear button before its answer. *)
Definition cleared : State := run [InputSearch "rust"; Fire 0; ClickClear] loaded.


(** On a short page: the first page of a tag search is in and announces
    more, the 500 ms check is armed. *)
Definition short_search : State :=
  run [Relayout short; ClickTag "rust"; Settle 0 (FetchResponse 200);
       Settle 0 (JsonValue (JsonObject more_hits)); Fire 0] loaded.

Definition four_cards : State :=
  set_postList (Some [ErrorPost; ErrorPost; ErrorPost; ErrorPost]) (initial page).

End Sample.

(** ** Tag chips *)




(** ** Further vocabulary *)

(** Every character is one that [encodeURIComponent] leaves alone, or
    the percent sign of an escape. *)
Fixpoint url_safe (s : string) : bool :=
  match s with
  | EmptyString => true
  | String c r => (unreserved c || Ascii.eqb c "%") && url_safe r
  end.

Fixpoint contains (c : ascii) (s : string) : bool :=
  match s with
  | EmptyString => false
  | String d r => Ascii.eqb c d || contains c r
  end.

(** The ways a search fetch fails: the [.catch] of the promise chain of
    [loadSearchResults], or the [catch] inside its response handler. *)
Inductive SearchFailure (query : string) (page : Z) (s : State) : State -> Prop :=
| search_fails_network : SearchFailure query page s (search_failed s)
| search_fails_status (status : Z) :
    response_ok status = false ->
    SearchFailure query page s (search_response status query page s)
| search_fails_null : SearchFailure query page s (search_data JsonNull query page s).

(** The search state of the script. *)
Definition search_state (s : State) : string * string * bool :=
  (currentSearchQuery s, currentTag s, isSearchMode s).

(** The query and the tag are one string, and search mode is on exactly
    when it is not empty. *)
Definition search_mode_ok (s : State) : Prop :=
  currentTag s = currentSearchQuery s
  /\ isSearchMode s = negb (String.eqb (currentSearchQuery s) "").

(** The number of armed timers that hold the callback [cb]. *)
Fixpoint armed_in (cb : Callback) (ts : list Timer) : nat :=
  match ts with
  | [] => O
  | (_, c) :: rest => (if callback_eqb c cb then 1 else 0) + armed_in cb rest
  end.

Definition armed (cb : Callback) (s : State) : nat := armed_in cb (timers s).

(** The three debounces: the scroll flag is up exactly while its one
    timer is armed; at most one resize timer and one search-box timer
    are armed. *)
Definition debounce_ok (s : State) : Prop :=
  armed ScrollCheck s = (if scrollTimeout s then 1 else 0)%nat
  /\ (armed ResizeFill s <= 1)%nat
  /\ (armed SearchInputFire s <= 1)%nat.

Definition debounce_view (s : State) : bool * nat * nat * nat :=
  (scrollTimeout s, armed ScrollCheck s, armed ResizeFill s, armed SearchInputFire s).

(** The callbacks that the loaders and the error shim arm themselves
    (the debounced ones belong to the three listeners). *)
Definition quiet (cb : Callback) : bool :=
  match cb with
  | CheckIfMoreContentNeeded | CheckInner | RemoveBanner _ => true
  | ScrollCheck | ResizeFill | SearchInputFire => false
  end.

(** An observation of the state that rendering, the error shim and the
    bookkeeping of requests cannot change. *)
Record Frame {A : Type} (view : State -> A) : Prop := mkFrame {
  frame_dom : forall d s, view (set_dom d s) = view s;
  frame_nextId : forall n s, view (set_nextId n s) = view s;
  frame_isLoading : forall b s, view (set_isLoading b s) = view s;
  frame_requests : forall r s, view (set_requests r s) = view s;
  frame_pending : forall q s, view (set_pending q s) = view s;
  frame_timer : forall ms cb s, quiet cb = true -> view (setTimeout ms cb s) = view s
}.

(** Every banner in the post list was created before the next element
    identity, and none twice. *)
Definition banner_id (n : Node) : option nat :=
  match n with
  | ErrorBanner i _ => Some i
  | _ => None
  end.

Definition banner_below (bound : nat) (n : Node) : Prop :=
  match n with
  | ErrorBanner i _ => (i < bound)%nat
  | _ => True
  end.

Definition banners_ok (s : State) : Prop :=
  match postList (dom s) with
  | Some kids => Forall (banner_below (nextId s)) kids
  | None => True
  end.

(** The featured cards of a list of post records, the first with index [i]. *)
Fixpoint featured_cards (ps : list Post) (i : Z) : list FeaturedNode :=
  match ps with
  | [] => []
  | p :: rest => FeaturedCard p i (featured_image p i) :: featured_cards rest (i + 1)
  end.

(** The events that carry no user request: scrolling, resizing, a new
    layout, a timer that expires. *)
Definition passive (e : Event) : bool :=
  match e with
  | Scroll | Resize | Relayout _ | Fire _ => true
  | _ => false
  end.


(** The outcomes that end a promise chain (a 2xx response does not: the
    body is still to come). *)
Definition terminal (k : Pending) (o : Outcome) : bool :=
  match k, o with
  | (LFetch | SFetch _ _), FetchRejected => true
  | (LFetch | SFetch _ _), FetchResponse status => negb (response_ok status)
  | (LJson | SJson _ _), (JsonRejected | JsonValue _) => true
  | _, _ => false
  end.

(** * Properties *)

(** ** Strings *)


Lemma trimEnd_blank (s : string) : blank s = true -> trimEnd s = "".
Proof.
  induction s as [|c r IH]; simpl; [reflexivity|].
  intros H. apply andb_prop in H as [Hc Hr]. rewrite (IH Hr), Hc. reflexivity.
Qed.






Lemma truthy_JStr (s : string) : truthy (JStr s) = true <-> s <> "".
Proof.
  simpl. destruct (String.eqb_spec s ""); simpl; split; congruence.
Qed.




(** ** Category labels *)








(** ** Ghost-row filler *)

Lemma addGhostCards_postList (s : State) (kids : list Node) :
  postList (dom s) = Some kids ->
  addGhostCards s =
    set_postList
      (Some (remove_ghosts kids
             ++ repeat GhostCard
                  (Z.to_nat (ghostsNeeded (offsetWidth (layout (dom s)))
                                          (Z.of_nat (List.length kids)))))) s.
Proof.
  intros H. unfold addGhostCards, ghostsNeeded, js_rem. rewrite H. cbn.
  destruct (offsetWidth (layout (dom s)) <=? 0).
  - simpl. rewrite app_nil_r. reflexivity.
  - destruct (Z.eqb_spec (offsetWidth (layout (dom s)) / 350) 0) as [E|E].
    + rewrite E. simpl. rewrite app_nil_r. reflexivity.
    + rewrite andb_comm.
      destruct ((offsetWidth (layout (dom s)) / 350 >? 1)
                && negb (Z.rem (Z.of_nat (List.length kids))
                           (offsetWidth (layout (dom s)) / 350) =? 0)).
      * reflexivity.
      * simpl. rewrite app_nil_r. reflexivity.
Qed.

Lemma addGhostCards_absent (s : State) :
  postList (dom s) = None -> addGhostCards s = s.
Proof. intros H. unfold addGhostCards. rewrite H. reflexivity. Qed.

Lemma remove_ghosts_app (a b : list Node) :
  remove_ghosts (a ++ b) = remove_ghosts a ++ remove_ghosts b.
Proof. apply filter_app. Qed.

Lemma remove_ghosts_repeat (n : nat) : remove_ghosts (repeat GhostCard n) = [].
Proof. induction n; simpl; auto. Qed.


(** The filler inserts nothing into a container without width, or into
    one where at most one card fits in a row. *)
Lemma ghostsNeeded_narrow (w n : Z) : w < 700 -> ghostsNeeded w n = 0.
Proof.
  intros H. unfold ghostsNeeded.
  destruct (Z.leb_spec w 0); [reflexivity|].
  assert (w / 350 <= 1) by (apply Z.lt_succ_r, Z.div_lt_upper_bound; lia).
  destruct (Z.gtb_spec (w / 350) 1); [lia|reflexivity].
Qed.

(** Otherwise it pads a ragged count up to the next multiple of the row. *)
Lemma ghostsNeeded_ragged (w n : Z) :
  0 <= n -> 1 < w / 350 -> Z.rem n (w / 350) <> 0 ->
  ghostsNeeded w n = w / 350 - Z.rem n (w / 350)
  /\ 0 < ghostsNeeded w n
  /\ Z.rem (n + ghostsNeeded w n) (w / 350) = 0.
Proof.
  intros Hn Hc Hr. unfold ghostsNeeded.
  assert (Hw : 0 < w).
  { destruct (Z.le_gt_cases w 0) as [L|L]; [|lia].
    assert (w / 350 <= 0) by (apply Z.div_le_upper_bound; lia). lia. }
  destruct (Z.leb_spec w 0); [lia|].
  destruct (Z.gtb_spec (w / 350) 1); [|lia].
  destruct (Z.eqb_spec (Z.rem n (w / 350)) 0); [contradiction|]. simpl.
  rewrite !Z.rem_mod_nonneg by lia.
  rewrite Z.rem_mod_nonneg in Hr by lia.
  pose proof (Z.mod_pos_bound n (w / 350) ltac:(lia)) as Hb.
  repeat split; try lia.
  rewrite (Z.div_mod n (w / 350)) at 1 by lia.
  replace (w / 350 * (n / (w / 350)) + n mod (w / 350) + (w / 350 - n mod (w / 350)))
    with ((n / (w / 350) + 1) * (w / 350)) by ring.
  apply Z.rem_mul. lia.
Qed.

(** What the second of two calls in a row does to a ragged row: the count
    it reads includes the fillers of the first call, so it finds the row
    complete, removes the fillers and appends none. *)
Lemma addGhostCards_twice (s : State) (kids : list Node) :
  postList (dom s) = Some kids ->
  remove_ghosts kids = kids ->
  1 < offsetWidth (layout (dom s)) / 350 ->
  Z.rem (Z.of_nat (List.length kids)) (offsetWidth (layout (dom s)) / 350) <> 0 ->
  exists g, (0 < g)%nat
    /\ postList (dom (addGhostCards s)) = Some (kids ++ repeat GhostCard g)
    /\ postList (dom (addGhostCards (addGhostCards s))) = Some kids.
Proof.
  intros Hk Hg Hc Hr.
  set (w := offsetWidth (layout (dom s))) in *.
  set (n := Z.of_nat (List.length kids)) in *.
  destruct (ghostsNeeded_ragged w n ltac:(lia) Hc Hr) as (Hv & Hpos & Hz).
  exists (Z.to_nat (ghostsNeeded w n)). split; [lia|].
  rewrite (addGhostCards_postList s kids Hk). fold w n. rewrite Hg.
  split; [reflexivity|].
  erewrite addGhostCards_postList by reflexivity. cbn. fold w.
  rewrite remove_ghosts_app, Hg, remove_ghosts_repeat, app_nil_r.
  rewrite length_app, repeat_length, Nat2Z.inj_add, Z2Nat.id by lia. fold n.
  assert (E : ghostsNeeded w (n + ghostsNeeded w n) = 0).
  { unfold ghostsNeeded at 1. rewrite Hz. simpl. rewrite andb_false_r.
    destruct (w <=? 0); reflexivity. }
  rewrite E. simpl. rewrite app_nil_r. reflexivity.
Qed.

(** C9, the code at the failing input: four cards in a container three
    cards wide.  The first call appends two fillers; the second call
    counts six children, finds the row complete, removes the fillers and
    appends none, so two calls in a row do not leave what one call leaves. *)
Theorem addGhostCards_second_call_differs :
  let once := addGhostCards Sample.four_cards in
  let twice := addGhostCards once in
  postList (dom once)
    = Some [ErrorPost; ErrorPost; ErrorPost; ErrorPost; GhostCard; GhostCard]
  /\ postList (dom twice) = Some [ErrorPost; ErrorPost; ErrorPost; ErrorPost]
  /\ postList (dom twice) <> postList (dom once).
Proof.
  cbv zeta. repeat split; try reflexivity. vm_compute. discriminate.
Qed.

(** ** Rendering loops *)

Lemma set_postList_same (s : State) (kids : list Node) :
  postList (dom s) = Some kids -> set_postList (Some kids) s = s.
Proof. destruct s as [? ? ? ? ? ? ? ? d ? ? ? ?]. destruct d. simpl. now intros ->. Qed.

Lemma forEach_regular_postList (posts : list (option Post)) :
  forall (s : State) (kids : list Node),
    postList (dom s) = Some kids ->
    forEach_regular posts s = set_postList (Some (kids ++ map createRegularPost posts)) s.
Proof.
  unfold forEach_regular.
  induction posts as [|post rest IH]; intros s kids H; simpl.
  - rewrite app_nil_r. symmetry. apply set_postList_same, H.
  - unfold appendChild at 2. rewrite H.
    rewrite (IH _ (kids ++ [createRegularPost post])) by reflexivity.
    rewrite <- app_assoc. reflexivity.
Qed.

Lemma remove_ghosts_cards (posts : list (option Post)) :
  remove_ghosts (map createRegularPost posts) = map createRegularPost posts.
Proof.
  induction posts as [|[p|] rest IH]; simpl; [reflexivity| |]; now rewrite IH.
Qed.

(** ** First listing page *)




(** ** Search responses *)

(** Destructs what the script tests ([if], [match]) until none is left. *)
Ltac split_tests :=
  repeat match goal with
         | |- context [match ?x with _ => _ end] => destruct x eqn:?
         end.


Lemma displaySearchResults_postList (posts : PageItems) (s : State) (kids : list Node) :
  postList (dom s) = Some kids ->
  exists shown,
    displaySearchResults posts s = set_postList (Some shown) s
    /\ (nonempty_array posts = true ->
        exists g, shown = map createRegularPost (items posts) ++ repeat GhostCard g)
    /\ (nonempty_array posts = false -> shown = [NoResults]).
Proof.
  intros H. unfold displaySearchResults. rewrite H.
  destruct (nonempty_array posts) eqn:E.
  - erewrite forEach_regular_postList by reflexivity.
    erewrite addGhostCards_postList by reflexivity.
    cbn. rewrite remove_ghosts_cards.
    eexists. split; [reflexivity|]. split; [|discriminate].
    intros _. eexists. reflexivity.
  - eexists. split; [reflexivity|]. split; [discriminate|reflexivity].
Qed.

(** C2, the claim as written fails: the search for "rust" is on its
    way when the user clears the search (search mode is off, the post
    list is emptied, the cursors are reset and the listing reloads); then
    the answer to the search arrives: the post list now holds the search
    result and the cursors are those of the search. *)
Lemma stale_search_response_populates :
  let late := run [Settle 0 (FetchResponse 200);
                   Settle 1 (JsonValue (JsonObject Sample.hits))] Sample.cleared in
  pending Sample.cleared = [SFetch "rust" 1; LFetch]
  /\ isSearchMode Sample.cleared = false
  /\ postList (dom Sample.cleared) = Some []
  /\ hasNext Sample.cleared = Some true
  /\ isSearchMode late = false
  /\ postList (dom late)
     = Some [RegularCard Sample.rust (Placeholder (Some "tech") (Text "Tech"));
             GhostCard; GhostCard]
  /\ currentPage late = Some 1 /\ hasNext late = Some false.
Proof. cbv zeta. repeat apply conj; vm_compute; reflexivity. Qed.

(** C2, amended: the response handler of [loadSearchResults] makes no
    check of staleness.  It consults neither [isSearchMode] nor the
    cursors: a page-1 response replaces the content of the post list with
    its results (or with the "No posts found" notice when there are none),
    overwrites [window.hasNext] and [window.currentPage] and resets
    [isLoading], in whatever state it arrives, so also after
    [clearSearch]. *)
Theorem search_response_not_guarded (s : State) (data : PageData) (query : string)
    (kids : list Node) (Hlist : postList (dom s) = Some kids) :
  let s' := search_data (JsonObject data) query 1 s in
  (forall posts, blog_posts data = BPArray posts -> posts <> [] ->
     exists g, postList (dom s') = Some (map createRegularPost posts ++ repeat GhostCard g))
  /\ ((forall posts, blog_posts data = BPArray posts -> posts = []) ->
      postList (dom s') = Some [NoResults])
  /\ hasNext s' = Some (has_next data)
  /\ currentPage s' = Some 1
  /\ isLoading s' = false
  /\ isSearchMode s' = isSearchMode s.
Proof.
  cbv zeta. unfold search_data. cbn [Z.eqb Pos.eqb].
  destruct (displaySearchResults_postList (items_or_empty (blog_posts data)) s kids Hlist)
    as (shown & -> & Hsome & Hnone).
  unfold updateSearchStatus, setTimeout.
  repeat apply conj.
  - intros posts Hp Hne. rewrite Hp in Hsome. destruct posts as [|p r]; [congruence|].
    destruct (Hsome eq_refl) as [g ->]. exists g. split_tests; reflexivity.
  - intros Hp.
    assert (E : nonempty_array (items_or_empty (blog_posts data)) = false).
    { destruct (blog_posts data) as [[|p r]|[|]]; try reflexivity.
      specialize (Hp _ eq_refl). discriminate. }
    rewrite (Hnone E). split_tests; reflexivity.
  - split_tests; reflexivity.
  - split_tests; reflexivity.
  - split_tests; reflexivity.
  - split_tests; reflexivity.
Qed.

(** The theorem at the state in which the user has just cleared a search. *)
Lemma search_response_not_guarded_witness :
  let late := search_data (JsonObject Sample.hits) "rust" 1 Sample.cleared in
  isSearchMode Sample.cleared = false
  /\ isSearchMode late = false
  /\ currentPage late = Some 1
  /\ hasNext late = Some false.
Proof.
  cbv zeta. split; [reflexivity|].
  destruct (search_response_not_guarded Sample.cleared Sample.hits "rust" [] eq_refl)
    as (_ & _ & Hn & Hp & _ & Hm).
  split; [exact Hm|]. split; [exact Hp|exact Hn].
Defined.

(** ** Listing failures *)

Lemma loadImages_failed (s : State) (kids : list Node) :
  postList (dom s) = Some kids ->
  let s' := loadImages_finally (loadImages_catch s) in
  page_num s' = page_num s
  /\ isLoading s' = false
  /\ postList (dom s') = Some (kids ++ [ErrorBanner (nextId s) load_error])
  /\ In (5000, RemoveBanner (nextId s)) (timers s')
  /\ requests s' = requests s.
Proof.
  intros H. cbv zeta.
  unfold loadImages_finally, loadImages_catch, showErrorMessage, appendChild, setTimeout.
  cbn. rewrite H. cbn. repeat split.
  apply in_or_app. left. apply in_or_app. right. now left.
Qed.

Lemma loadImages_data_resets (d : JsonData) (s : State) :
  isLoading (loadImages_data d s) = false.
Proof.
  unfold loadImages_data, loadImages_finally. split_tests; reflexivity.
Qed.

(** C4, the claim as written fails: the answer to the first listing
    request is a 2xx response whose [blog_posts] is a string.  No banner
    is shown and [page_num] moves on to 2. *)
Lemma malformed_payload_advances :
  let waiting := run [Settle 0 (FetchResponse 200)] (boot Sample.page) in
  let odd := mkPage (BPOther true) true 0 in
  let after := run [Settle 0 (JsonValue (JsonObject odd))] waiting in
  page_num waiting = 1
  /\ postList (dom waiting) = Some []
  /\ page_num after = 2
  /\ postList (dom after) = Some [].
Proof. cbv zeta. repeat split. Qed.

(** C4, amended: when the fetch of [loadImages] fails (the network
    request is rejected, the status is not 2xx, the body is not JSON or
    is [null]) and the page has its [#post-list], the error banner is
    appended to it (to be removed after 5 s), [page_num] is left
    unchanged, no request is sent and [isLoading] is false again; and
    [isLoading] is false after every way the body can be processed.  A
    2xx response whose [blog_posts] is not an array is not a failure:
    nothing is rendered, no banner is shown, and [page_num] advances as
    it does after any page (it stays only when [has_next] is false on a
    page after the first). *)
Theorem listing_failure_retryable (s s' : State) (kids : list Node)
    (Hlist : postList (dom s) = Some kids) (Hfail : ListingFailure s s') :
  (page_num s' = page_num s
   /\ isLoading s' = false
   /\ postList (dom s') = Some (kids ++ [ErrorBanner (nextId s) load_error])
   /\ In (5000, RemoveBanner (nextId s)) (timers s')
   /\ requests s' = requests s)
  /\ (forall d, isLoading (loadImages_data d s) = false)
  /\ (forall data b, blog_posts data = BPOther b ->
        let t := loadImages_data (JsonObject data) s in
        postList (dom t) = Some kids
        /\ page_num t = (if negb (has_next data) && (page_num s >? 1)
                         then page_num s else page_num s + 1)).
Proof.
  repeat apply conj.
  1-5: destruct Hfail as [|status Hstatus| |];
       unfold loadImages_rejected, loadImages_response, loadImages_data;
       try rewrite Hstatus; apply (loadImages_failed s kids Hlist).
  - intros d. apply loadImages_data_resets.
  - intros data b H. cbv zeta.
    unfold loadImages_data, render_listing, loadImages_finally.
    rewrite H. cbn. rewrite !andb_false_r.
    destruct (negb (has_next data) && (page_num s >? 1)); cbn;
      (split; [exact Hlist|reflexivity]).
Qed.

(** The theorem for the scenario of the specification: the request for
    listing page 2 is answered with HTTP 500. *)
Lemma listing_failure_retryable_witness :
  let after := run [Settle 0 (FetchResponse 500)] Sample.scrolled in
  page_num Sample.scrolled = 2
  /\ page_num after = 2
  /\ isLoading after = false
  /\ postList (dom after) = Some [ErrorBanner 0 load_error].
Proof.
  cbv zeta. split; [reflexivity|].
  destruct (listing_failure_retryable (set_pending [] Sample.scrolled) _ [] eq_refl
              (fails_status _ 500 eq_refl)) as ((Hp & Hl & Hb & _) & _).
  split; [exact Hp|]. split; [exact Hl|exact Hb].
Defined.

(** ** Exhausted listing *)

Lemma nth_error_last {A : Type} (l : list A) (x : A) :
  nth_error (l ++ [x]) (List.length l) = Some x.
Proof. induction l; simpl; auto. Qed.

Lemma remove_at_last {A : Type} (l : list A) (x : A) :
  remove_at (List.length l) (l ++ [x]) = l.
Proof. induction l as [|a l IH]; simpl; [reflexivity|]. now rewrite IH. Qed.

Lemma listing_round_exhausted (data : PageData) (s : State) :
  isLoading s = false -> 1 < page_num s -> has_next data = false ->
  listing_round data s
  = set_timers (timers s ++ [(100, CheckIfMoreContentNeeded)])
      (set_requests (requests s ++ [listing_url (page_num s)]) s).
Proof.
  intros Hidle Hpage Hlast.
  unfold listing_round, loadImages. rewrite Hidle.
  unfold settle, fetch. cbn.
  rewrite nth_error_last, remove_at_last. cbn.
  rewrite nth_error_last, remove_at_last.
  unfold loadImages_data. cbn. rewrite Hlast.
  destruct (Z.gtb_spec (page_num s) 1); [|lia].
  cbn. unfold set_timers, set_requests. cbn. rewrite Hidle. reflexivity.
Qed.

(** What the script does once the listing is exhausted: it keeps no
    record of it.  Every later idle call of [loadImages] requests the same
    page again; as long as the answers keep [has_next] false, [page_num]
    does not advance, nothing is rendered and the page is idle again
    after each answer. *)
Lemma exhausted_listing_rounds (n : nat) (data : PageData) (s : State)
    (Hidle : isLoading s = false) (Hpage : 1 < page_num s)
    (Hlast : has_next data = false) :
  let s' := listing_rounds n data s in
  page_num s' = page_num s
  /\ isLoading s' = false
  /\ dom s' = dom s
  /\ pending s' = pending s
  /\ requests s' = requests s ++ repeat (listing_url (page_num s)) n.
Proof.
  cbv zeta. revert s Hidle Hpage.
  induction n as [|n IH]; intros s Hidle Hpage; simpl.
  - rewrite app_nil_r. auto.
  - rewrite (listing_round_exhausted data s Hidle Hpage Hlast).
    match goal with |- context [listing_rounds n data ?t] =>
      destruct (IH t) as (Hp & Hl & Hd & Hq & Hr); [exact Hidle|exact Hpage|] end.
    rewrite Hp, Hl, Hd, Hq, Hr. cbn. rewrite <- app_assoc. auto.
Qed.

(** C3, the code at the failing input: page 2 has been answered with
    [has_next] false and the page is idle.  The next call of [loadImages]
    sends the request for page 2 again and sets [isLoading]; three
    calls, each answered the same way, send it three times more. *)
Theorem exhausted_listing_is_fetched_again :
  page_num Sample.exhausted = 2
  /\ isLoading Sample.exhausted = false
  /\ requests Sample.exhausted = ["?page=1"; "?page=2"]
  /\ requests (loadImages Sample.exhausted) = ["?page=1"; "?page=2"; "?page=2"]
  /\ isLoading (loadImages Sample.exhausted) = true
  /\ requests (loadImages Sample.exhausted) <> requests Sample.exhausted
  /\ requests (listing_rounds 3 Sample.last_page Sample.exhausted)
     = ["?page=1"; "?page=2"; "?page=2"; "?page=2"; "?page=2"]
  /\ page_num (listing_rounds 3 Sample.last_page Sample.exhausted) = 2.
Proof.
  repeat apply conj; try (vm_compute; reflexivity).
  vm_compute. discriminate.
Qed.

(** ** Viewport auto-fill *)



(** ** Arguments of the search fetch *)



(** ** Empty search and clearing *)



(** Where the two differ on the empty query: [clearSearch] also resets
    the search cursors and the section title, which the empty-query branch
    of [performSearch] leaves as they were. *)
Lemma performSearch_empty_keeps_cursors (s : State) (t : string) :
  sectionTitle (dom s) = Some t ->
  (hasNext (performSearch "" s) = hasNext s
   /\ currentPage (performSearch "" s) = currentPage s
   /\ sectionTitle (dom (performSearch "" s)) = Some t)
  /\ (hasNext (clearSearch s) = Some true
      /\ currentPage (clearSearch s) = Some 1
      /\ sectionTitle (dom (clearSearch s)) = Some "All Posts").
Proof.
  intros H.
  destruct s as [pn [|] q ct m hn cp st [[f|] [pl|] [si|] [ss|] ti sa l] pe tm rq ni];
    simpl in H; subst ti; repeat split.
Qed.


(** ** One fetch at a time *)

(** What the guard of [loadImages] does give: a call made while
    [isLoading] is true sends nothing -- and, through the [finally]
    block, clears the flag. *)
Lemma loadImages_guard (s : State) :
  isLoading s = true ->
  requests (loadImages s) = requests s
  /\ pending (loadImages s) = pending s
  /\ isLoading (loadImages s) = false.
Proof. intros H. unfold loadImages. rewrite H. repeat split. Qed.

(** Two calls in a row on an idle page send one request. *)
Lemma loadImages_two_calls (s : State) :
  isLoading s = false ->
  requests (loadImages (loadImages s)) = requests s ++ [listing_url (page_num s)]
  /\ pending (loadImages (loadImages s)) = pending s ++ [LFetch].
Proof.
  intros H.
  destruct s as [pn il q t m hn cp st d pe tm rq ni]. simpl in H. subst il.
  split; reflexivity.
Qed.

(** [performSearch] on a query that is not empty neither tests nor sets
    [isLoading]: the search request leaves whatever the flag says, and
    the flag stays as it was. *)
Lemma performSearch_ignores_flag (c : ascii) (q : string) (s : State) (kids : list Node) :
  postList (dom s) = Some kids ->
  requests (performSearch (String c q) s) = requests s ++ [search_url (String c q) 1]
  /\ pending (performSearch (String c q) s) = pending s ++ [SFetch (String c q) 1]
  /\ isLoading (performSearch (String c q) s) = isLoading s.
Proof.
  intros H.
  destruct s as [pn il cq ct m hn cp st [f pl si ss [ti|] sa l] pe tm rq ni];
    simpl in H; subst pl; repeat split.
Qed.

(** So does [filterByTag]. *)
Lemma filterByTag_ignores_flag (c : ascii) (t : string) (s : State) (kids : list Node) :
  postList (dom s) = Some kids ->
  requests (filterByTag (String c t) s) = requests s ++ [search_url (String c t) 1]
  /\ pending (filterByTag (String c t) s) = pending s ++ [SFetch (String c t) 1]
  /\ isLoading (filterByTag (String c t) s) = isLoading s.
Proof.
  intros H.
  destruct s as [pn il cq ct m hn cp st [f pl [si|] ss [ti|] sa l] pe tm rq ni];
    simpl in H; subst pl; repeat split.
Qed.

(** The scroll handler and the auto-fill check, by contrast, send a
    search request only when the flag is down, and raise it. *)
Lemma scroll_check_respects_flag (s : State) :
  isLoading s = true ->
  requests (scroll_check s) = requests s /\ pending (scroll_check s) = pending s.
Proof.
  intros H. unfold scroll_check. cbv zeta. cbn.
  rewrite H, andb_false_r. split_tests; try discriminate; split; reflexivity.
Qed.

(** C1, the code at failing inputs.  (1) The request for listing page 2
    is outstanding and [isLoading] is true; the user types "rust" and the
    debounced search fires: [performSearch] does not look at the flag,
    and the search request is sent while the listing request is still
    pending.  (2) Three calls of [loadImages] in a row (three clicks on
    the clear button): the second call returns at the guard, but its
    [finally] block clears [isLoading], so the third call sends a second
    request while the first is pending.  (3) The script's first
    statements, [loadImages(); isLoading = false;], leave the flag false
    while the first request is pending, so a scroll before its answer
    sends the request for page 1 a second time. *)
Theorem fetches_overlap :
  (let busy := Sample.scrolled in
   let both := run [InputSearch "rust"; Fire 0] busy in
   isLoading busy = true
   /\ pending busy = [LFetch]
   /\ pending both = [LFetch; SFetch "rust" 1]
   /\ requests both = requests busy ++ ["/blog/search/?page=1&search=rust"])
  /\ (let thrice := run [ClickClear; ClickClear; ClickClear] Sample.loaded in
      pending Sample.loaded = []
      /\ pending thrice = [LFetch; LFetch]
      /\ requests thrice = requests Sample.loaded ++ ["?page=1"; "?page=1"])
  /\ (let early := run [Scroll; Fire 0] (boot Sample.page) in
      isLoading (boot Sample.page) = false
      /\ pending (boot Sample.page) = [LFetch]
      /\ pending early = [LFetch; LFetch]
      /\ requests early = ["?page=1"; "?page=1"]).
Proof. cbv zeta. repeat apply conj; vm_compute; reflexivity. Qed.

(** ** Cursors of reachable states *)

Lemma cursors_ok_ext (s s' : State) :
  cursors s' = cursors s -> cursors_ok s -> cursors_ok s'.
Proof.
  unfold cursors, cursors_ok. intros [= Hp Hn Hc Hq]. rewrite Hp, Hn, Hc, Hq. auto.
Qed.

Lemma appendChild_cursors (n : Node) (s : State) : cursors (appendChild n s) = cursors s.
Proof. unfold appendChild. split_tests; reflexivity. Qed.

Lemma showErrorMessage_cursors (m : string) (s : State) :
  cursors (showErrorMessage m s) = cursors s.
Proof. unfold showErrorMessage, appendChild, setTimeout. cbn. split_tests; reflexivity. Qed.

Lemma addGhostCards_cursors (s : State) : cursors (addGhostCards s) = cursors s.
Proof.
  destruct (postList (dom s)) as [kids|] eqn:E.
  - now rewrite (addGhostCards_postList s kids E).
  - now rewrite (addGhostCards_absent s E).
Qed.

Lemma forEach_regular_cursors (posts : list (option Post)) (s : State) :
  cursors (forEach_regular posts s) = cursors s.
Proof.
  unfold forEach_regular. revert s.
  induction posts as [|post rest IH]; intros s; simpl; [reflexivity|].
  rewrite IH. apply appendChild_cursors.
Qed.

Lemma createFeaturedPost_cursors (post : option Post) (i : Z) (s : State) :
  cursors (createFeaturedPost post i s) = cursors s.
Proof.
  unfold createFeaturedPost. split_tests; try reflexivity; apply showErrorMessage_cursors.
Qed.

Lemma forEach_featured_cursors (posts : list (option Post)) :
  forall (i : Z) (s : State), cursors (forEach_featured posts i s) = cursors s.
Proof.
  induction posts as [|post rest IH]; intros i s; simpl; [reflexivity|].
  rewrite IH. apply createFeaturedPost_cursors.
Qed.

Lemma render_listing_cursors (data : PageData) (s : State) :
  cursors (render_listing data s) = cursors s.
Proof.
  unfold render_listing. cbv zeta.
  split_tests; try reflexivity;
    rewrite ?addGhostCards_cursors, ?forEach_regular_cursors, ?forEach_featured_cursors;
    reflexivity.
Qed.

Lemma showSearchError_cursors (s : State) : cursors (showSearchError s) = cursors s.
Proof. unfold showSearchError. split_tests; reflexivity. Qed.

Lemma displaySearchResults_cursors (posts : PageItems) (s : State) :
  cursors (displaySearchResults posts s) = cursors s.
Proof.
  unfold displaySearchResults. cbv zeta.
  split_tests; try reflexivity;
    rewrite ?addGhostCards_cursors, ?forEach_regular_cursors, ?showSearchError_cursors;
    reflexivity.
Qed.

Lemma appendSearchResults_cursors (posts : PageItems) (s : State) :
  cursors (appendSearchResults posts s) = cursors s.
Proof.
  unfold appendSearchResults.
  split_tests; try reflexivity;
    rewrite ?addGhostCards_cursors, ?forEach_regular_cursors; reflexivity.
Qed.

Lemma clear_containers_cursors (s : State) : cursors (clear_containers s) = cursors s.
Proof. unfold clear_containers. cbv zeta. split_tests; reflexivity. Qed.

Lemma set_ok (f : State -> State) :
  (forall s, cursors (f s) = cursors s) -> forall s, cursors_ok s -> cursors_ok (f s).
Proof. intros Hf s H. apply (cursors_ok_ext s); [apply Hf|exact H]. Qed.

(** Field updates that leave the cursors alone. *)
Lemma set_isLoading_ok v s : cursors_ok s -> cursors_ok (set_isLoading v s).
Proof. apply (set_ok (set_isLoading v)). reflexivity. Qed.

Lemma set_currentSearchQuery_ok v s : cursors_ok s -> cursors_ok (set_currentSearchQuery v s).
Proof. apply (set_ok (set_currentSearchQuery v)). reflexivity. Qed.

Lemma set_currentTag_ok v s : cursors_ok s -> cursors_ok (set_currentTag v s).
Proof. apply (set_ok (set_currentTag v)). reflexivity. Qed.

Lemma set_isSearchMode_ok v s : cursors_ok s -> cursors_ok (set_isSearchMode v s).
Proof. apply (set_ok (set_isSearchMode v)). reflexivity. Qed.

Lemma set_scrollTimeout_ok v s : cursors_ok s -> cursors_ok (set_scrollTimeout v s).
Proof. apply (set_ok (set_scrollTimeout v)). reflexivity. Qed.

Lemma set_timers_ok v s : cursors_ok s -> cursors_ok (set_timers v s).
Proof. apply (set_ok (set_timers v)). reflexivity. Qed.

Lemma set_requests_ok v s : cursors_ok s -> cursors_ok (set_requests v s).
Proof. apply (set_ok (set_requests v)). reflexivity. Qed.

Lemma set_searchActive_ok v s : cursors_ok s -> cursors_ok (set_searchActive v s).
Proof. apply (set_ok (set_searchActive v)). reflexivity. Qed.

Lemma set_sectionTitle_ok v s : cursors_ok s -> cursors_ok (set_sectionTitle v s).
Proof. apply (set_ok (set_sectionTitle v)). reflexivity. Qed.

Lemma set_postList_ok v s : cursors_ok s -> cursors_ok (set_postList v s).
Proof. apply (set_ok (set_postList v)). reflexivity. Qed.

Lemma set_searchInput_ok v s : cursors_ok s -> cursors_ok (set_searchInput v s).
Proof. apply (set_ok (set_searchInput v)). reflexivity. Qed.

Lemma set_searchStatus_ok v s : cursors_ok s -> cursors_ok (set_searchStatus v s).
Proof. apply (set_ok (set_searchStatus v)). reflexivity. Qed.

Lemma set_layout_ok v s : cursors_ok s -> cursors_ok (set_layout v s).
Proof. apply (set_ok (set_layout v)). reflexivity. Qed.

(** The updates that do touch them. *)
Lemma set_page_num_ok v s : 1 <= v -> cursors_ok s -> cursors_ok (set_page_num v s).
Proof. intros Hv (H1 & H2 & H3). repeat split; assumption. Qed.

Lemma set_cursor_ok b c s :
  1 <= c -> cursors_ok s -> cursors_ok (set_currentPage (Some c) (set_hasNext b s)).
Proof.
  intros Hc (H1 & H2 & H3). repeat split; try assumption.
  intros _. exists c. split; [reflexivity|exact Hc].
Qed.

Lemma push_pending_ok k s :
  page_ok k -> cursors_ok s -> cursors_ok (set_pending (pending s ++ [k]) s).
Proof.
  intros Hk (H1 & H2 & H3). repeat split; try assumption.
  apply Forall_app. split; [exact H3|]. constructor; [exact Hk|constructor].
Qed.

Lemma remove_at_Forall {A : Type} (P : A -> Prop) (l : list A) :
  Forall P l -> forall i, Forall P (remove_at i l).
Proof.
  induction 1 as [|x l Hx Hl IH]; intros [|i]; simpl; auto.
Qed.

Lemma drop_pending_ok i s : cursors_ok s -> cursors_ok (set_pending (remove_at i (pending s)) s).
Proof.
  intros (H1 & H2 & H3). repeat split; try assumption.
  apply remove_at_Forall, H3.
Qed.

(** The helpers. *)
Lemma setTimeout_ok ms cb s : cursors_ok s -> cursors_ok (setTimeout ms cb s).
Proof. apply set_timers_ok. Qed.

Lemma clearTimeout_ok cb s : cursors_ok s -> cursors_ok (clearTimeout cb s).
Proof. apply set_timers_ok. Qed.

Lemma showErrorMessage_ok m s : cursors_ok s -> cursors_ok (showErrorMessage m s).
Proof. apply (set_ok (showErrorMessage m)), showErrorMessage_cursors. Qed.

Lemma removeBanner_ok id s : cursors_ok s -> cursors_ok (removeBanner id s).
Proof. intros H. unfold removeBanner. destruct (postList (dom s)); auto using set_postList_ok. Qed.

Lemma addGhostCards_ok s : cursors_ok s -> cursors_ok (addGhostCards s).
Proof. apply (set_ok addGhostCards), addGhostCards_cursors. Qed.

Lemma render_listing_ok data s : cursors_ok s -> cursors_ok (render_listing data s).
Proof. apply (set_ok (render_listing data)), render_listing_cursors. Qed.

Lemma showSearchError_ok s : cursors_ok s -> cursors_ok (showSearchError s).
Proof. apply (set_ok showSearchError), showSearchError_cursors. Qed.

Lemma displaySearchResults_ok posts s :
  cursors_ok s -> cursors_ok (displaySearchResults posts s).
Proof. apply (set_ok (displaySearchResults posts)), displaySearchResults_cursors. Qed.

Lemma appendSearchResults_ok posts s :
  cursors_ok s -> cursors_ok (appendSearchResults posts s).
Proof. apply (set_ok (appendSearchResults posts)), appendSearchResults_cursors. Qed.

Lemma updateSearchStatus_ok n q s : cursors_ok s -> cursors_ok (updateSearchStatus n q s).
Proof.
  intros H. unfold updateSearchStatus. split_tests; auto using set_searchStatus_ok.
Qed.

Lemma clear_containers_ok s : cursors_ok s -> cursors_ok (clear_containers s).
Proof. apply (set_ok clear_containers), clear_containers_cursors. Qed.

Lemma set_title_ok v s : cursors_ok s -> cursors_ok (set_title v s).
Proof.
  intros H. unfold set_title. destruct (sectionTitle (dom s)); auto using set_sectionTitle_ok.
Qed.

Lemma normalize_page_pos (page : jsval) : 1 <= normalize_page page.
Proof. unfold normalize_page. destruct page; try lia. destruct (Z.ltb_spec z 1); lia. Qed.

Create HintDb cursors.

#[local] Hint Resolve set_isLoading_ok set_currentSearchQuery_ok set_currentTag_ok
  set_isSearchMode_ok set_scrollTimeout_ok set_timers_ok set_requests_ok
  set_searchActive_ok set_sectionTitle_ok set_postList_ok set_searchInput_ok
  set_searchStatus_ok set_layout_ok set_cursor_ok push_pending_ok drop_pending_ok
  setTimeout_ok clearTimeout_ok showErrorMessage_ok removeBanner_ok addGhostCards_ok
  render_listing_ok showSearchError_ok displaySearchResults_ok appendSearchResults_ok
  updateSearchStatus_ok clear_containers_ok set_title_ok normalize_page_pos : cursors.

(** Unfolds a handler and follows its tests; every leaf is a chain of the
    steps above. *)
Ltac follow f := intros; unfold f; cbv zeta; split_tests; auto 30 with cursors.

(** The two loaders and their continuations. *)
Lemma loadImages_ok s : cursors_ok s -> cursors_ok (loadImages s).
Proof.
  intros H. unfold loadImages, loadImages_finally, fetch. cbv zeta.
  destruct (isLoading s); [auto with cursors|].
  apply set_requests_ok.
  apply (push_pending_ok LFetch (set_isLoading true s) I). auto with cursors.
Qed.

Lemma loadImages_rejected_ok s : cursors_ok s -> cursors_ok (loadImages_rejected s).
Proof.
  intros H. unfold loadImages_rejected, loadImages_finally, loadImages_catch.
  auto with cursors.
Qed.

Lemma loadImages_response_ok status s :
  cursors_ok s -> cursors_ok (loadImages_response status s).
Proof.
  intros H. unfold loadImages_response, loadImages_finally, loadImages_catch.
  destruct (response_ok status); [|auto with cursors].
  apply (push_pending_ok LJson s I H).
Qed.

Lemma loadImages_data_ok d s : cursors_ok s -> cursors_ok (loadImages_data d s).
Proof.
  intros H. unfold loadImages_data, loadImages_finally, loadImages_catch. cbv zeta.
  destruct d as [|data]; [auto with cursors|].
  destruct (negb (has_next data) && (page_num s >? 1)); [auto with cursors|].
  apply setTimeout_ok, set_isLoading_ok, set_page_num_ok; [|auto with cursors].
  pose proof (render_listing_cursors data s) as [= Hp _ _ _].
  destruct H as (H1 & _). lia.
Qed.

Lemma loadSearchResults_ok query page s :
  cursors_ok s -> cursors_ok (loadSearchResults query page s).
Proof.
  intros H. unfold loadSearchResults, loadSearchResults_run, loadSearchResults_try, fetch.
  cbv zeta. destruct (coerce_query query) as [q|]; cbn [completed]; [|auto with cursors].
  apply set_requests_ok.
  apply (push_pending_ok (SFetch q (normalize_page page)) s); [|exact H].
  apply normalize_page_pos.
Qed.

Lemma search_failed_ok s : cursors_ok s -> cursors_ok (search_failed s).
Proof. intros H. unfold search_failed. auto with cursors. Qed.

Lemma search_response_ok status q p s :
  1 <= p -> cursors_ok s -> cursors_ok (search_response status q p s).
Proof.
  intros Hp H. unfold search_response.
  destruct (response_ok status); [|apply search_failed_ok, H].
  apply (push_pending_ok (SJson q p) s Hp H).
Qed.

Lemma search_data_ok d q p s :
  1 <= p -> cursors_ok s -> cursors_ok (search_data d q p s).
Proof.
  intros Hp H. unfold search_data. cbv zeta.
  destruct d as [|data]; [apply search_failed_ok, H|].
  destruct (p =? 1); auto 10 with cursors.
Qed.

#[local] Hint Resolve loadImages_ok loadSearchResults_ok : cursors.

(** The handlers. *)
Lemma performSearch_ok query s : cursors_ok s -> cursors_ok (performSearch query s).
Proof. follow performSearch. apply loadImages_ok, clear_containers_ok, set_page_num_ok;
  [lia|auto with cursors]. Qed.

Lemma filterByTag_ok tagName s : cursors_ok s -> cursors_ok (filterByTag tagName s).
Proof. follow filterByTag. Qed.

Lemma clearSearch_ok s : cursors_ok s -> cursors_ok (clearSearch s).
Proof.
  follow clearSearch;
    apply loadImages_ok, set_title_ok, clear_containers_ok, set_cursor_ok; try lia;
    apply set_isSearchMode_ok, set_currentTag_ok, set_currentSearchQuery_ok,
      set_page_num_ok; try lia; auto with cursors.
Qed.

Lemma check_inner_ok s : cursors_ok s -> cursors_ok (check_inner s).
Proof. follow check_inner. Qed.

Lemma scroll_check_ok s : cursors_ok s -> cursors_ok (scroll_check s).
Proof. follow scroll_check. Qed.

Lemma on_scroll_ok s : cursors_ok s -> cursors_ok (on_scroll s).
Proof. follow on_scroll. Qed.

Lemma on_resize_ok s : cursors_ok s -> cursors_ok (on_resize s).
Proof. follow on_resize. Qed.

Lemma on_input_ok v s : cursors_ok s -> cursors_ok (on_input v s).
Proof. follow on_input. Qed.

Lemma on_submit_ok s : cursors_ok s -> cursors_ok (on_submit s).
Proof. intros H. unfold on_submit. apply performSearch_ok, H. Qed.

Lemma search_input_fire_ok s : cursors_ok s -> cursors_ok (search_input_fire s).
Proof. follow search_input_fire. apply performSearch_ok. assumption. Qed.

Lemma on_pill_ok t s : cursors_ok s -> cursors_ok (on_pill t s).
Proof. follow on_pill; auto using clearSearch_ok, filterByTag_ok. Qed.

Lemma run_callback_ok cb s : cursors_ok s -> cursors_ok (run_callback cb s).
Proof.
  intros H. destruct cb; simpl;
    auto using check_inner_ok, scroll_check_ok, search_input_fire_ok with cursors.
Qed.

Lemma fire_ok i s : cursors_ok s -> cursors_ok (fire i s).
Proof.
  intros H. unfold fire. destruct (nth_error (timers s) i) as [[ms cb]|]; [|exact H].
  apply run_callback_ok. auto with cursors.
Qed.

Lemma settle_ok i o s : cursors_ok s -> cursors_ok (settle i o s).
Proof.
  intros H. unfold settle. cbv zeta.
  destruct (nth_error (pending s) i) as [k|] eqn:E; [|exact H].
  assert (Hk : page_ok k).
  { destruct H as (_ & _ & HF). rewrite Forall_forall in HF.
    apply HF. eapply nth_error_In, E. }
  pose proof (drop_pending_ok i s H) as H'.
  destruct k, o; try exact H;
    auto using loadImages_rejected_ok, loadImages_response_ok, loadImages_data_ok,
      search_failed_ok, search_response_ok, search_data_ok.
Qed.

Lemma step_ok e s : cursors_ok s -> cursors_ok (step e s).
Proof.
  intros H. destruct e; simpl; try destruct (supportsAjax s);
    auto using on_scroll_ok, on_resize_ok, on_submit_ok, on_input_ok, clearSearch_ok,
      on_pill_ok, filterByTag_ok, fire_ok, settle_ok with cursors.
Qed.

Lemma boot_ok d : cursors_ok (boot d).
Proof.
  unfold boot. apply set_isLoading_ok, loadImages_ok.
  repeat split; simpl; [lia|congruence|constructor].
Qed.

(** In every state the script can reach, the page numbers are at least 1
    and a written [window.hasNext] comes with a [window.currentPage]. *)
Theorem reachable_cursors_ok (d : Dom) (s : State) : reachable d s -> cursors_ok s.
Proof. induction 1 as [|e s _ IH]; [apply boot_ok|apply step_ok, IH]. Qed.

(** So the auto-fill of a search always asks for the page after the last
    one received. *)
Corollary autofill_next_search_page (d : Dom) (s : State) :
  reachable d s ->
  scrollHeight (layout (dom s)) <= innerHeight (layout (dom s)) + 100 ->
  hasNext s = Some true -> isLoading s = false -> isSearchMode s = true ->
  exists c, currentPage s = Some c /\ 1 <= c
    /\ requests (run_callback CheckInner s)
       = requests s ++ [search_url (currentSearchQuery s) (c + 1)].
Proof.
  intros Hr Hshort Hmore Hidle Hmode.
  destruct (reachable_cursors_ok d s Hr) as (_ & Hc & _).
  destruct Hc as (c & Hc & Hpos); [congruence|].
  exists c. repeat split; try assumption.
  cbn. unfold check_inner, has_more. rewrite Hmore, Hidle, Hmode.
  destruct (Z.leb_spec (scrollHeight (layout (dom s)))
              (innerHeight (layout (dom s)) + 100)); [|lia].
  cbn. unfold loadSearchResults, loadSearchResults_run, loadSearchResults_try.
  cbn. rewrite Hc. cbn [next_page normalize_page].
  destruct (Z.ltb_spec (c + 1) 1); [lia|]. reflexivity.
Qed.

(** * Further properties of the script *)

(** ** Trimmed labels *)











(** ** Tag chips *)




(** ** The search parameter *)

Lemma hex_digit_unreserved (n : nat) : (n < 16)%nat -> unreserved (hex_digit n) = true.
Proof.
  intros H. do 16 (destruct n as [|n]; [reflexivity|]). lia.
Qed.

Lemma code_bound (c : ascii) : (code c < 256)%nat.
Proof. apply nat_ascii_bounded. Qed.

Lemma encodeURIComponent_cons (c : ascii) (r : string) :
  encodeURIComponent (String c r)
  = if unreserved c then String c (encodeURIComponent r)
    else String "%" (String (hex_digit (code c / 16))
                       (String (hex_digit (code c mod 16)) (encodeURIComponent r))).
Proof. reflexivity. Qed.

Lemma encodeURIComponent_safe (q : string) : url_safe (encodeURIComponent q) = true.
Proof.
  induction q as [|c r IH]; [reflexivity|]. rewrite encodeURIComponent_cons.
  destruct (unreserved c) eqn:E; cbn [url_safe].
  - now rewrite E, IH.
  - pose proof (code_bound c) as Hc.
    rewrite !hex_digit_unreserved, IH; [reflexivity| |].
    + apply Nat.mod_upper_bound. lia.
    + apply Nat.Div0.div_lt_upper_bound. lia.
Qed.

Lemma url_safe_excludes (c : ascii) (s : string) :
  unreserved c = false -> c <> "%"%char -> url_safe s = true -> contains c s = false.
Proof.
  intros Hu Hp. induction s as [|d r IH]; simpl; [reflexivity|].
  intros H. apply andb_prop in H as [Hd Hr]. rewrite (IH Hr), orb_false_r.
  destruct (Ascii.eqb_spec c d) as [<-|]; [|reflexivity].
  rewrite Hu in Hd. simpl in Hd. apply Ascii.eqb_eq in Hd. contradiction.
Qed.

(** X4: the query never leaks into the structure of the search URL:
    what [encodeURIComponent] yields holds only characters it leaves
    alone and percent escapes, so none of [& = # ? / + space]; the URL of
    a search for a query that is not empty is the path, the page number,
    [&search=] and that encoding. *)
Theorem search_parameter_is_escaped (q : string) (page : Z) :
  url_safe (encodeURIComponent q) = true
  /\ Forall (fun c => contains c (encodeURIComponent q) = false)
       ["&"; "="; "#"; "?"; "/"; "+"; " "]%char
  /\ (q <> "" ->
      search_url q page
      = ("/blog/search/?page=" ++ show_int page ++ "&search=" ++ encodeURIComponent q)%string).
Proof.
  pose proof (encodeURIComponent_safe q) as H.
  split; [exact H|]. split.
  - repeat constructor; apply url_safe_excludes; try reflexivity; try discriminate; exact H.
  - intros Hq. unfold search_url. apply truthy_JStr in Hq. rewrite Hq. reflexivity.
Qed.

(** The theorem for a query that is made of such characters. *)
Lemma search_parameter_is_escaped_witness :
  search_url "a&b=c d" 2 = "/blog/search/?page=2&search=a%26b%3Dc%20d".
Proof.
  destruct (search_parameter_is_escaped "a&b=c d" 2) as (_ & _ & H).
  apply H. discriminate.
Defined.






(** ** Rows of the post grid *)

Lemma ghostsNeeded_bound (w n : Z) :
  0 <= n -> 0 <= ghostsNeeded w n < Z.max 1 (w / 350).
Proof.
  intros Hn. unfold ghostsNeeded.
  destruct (w <=? 0); [lia|].
  destruct (Z.gtb_spec (w / 350) 1); simpl; [|lia].
  destruct (Z.eqb_spec (Z.rem n (w / 350)) 0); simpl; [lia|].
  pose proof (Z.rem_bound_pos n (w / 350) Hn ltac:(lia)). lia.
Qed.



(** X7: called on a post list without fillers, in a container where at
    least two cards fit in a row, [addGhostCards] completes the last
    row: the number of children becomes a multiple of the cards per
    row. *)
Theorem addGhostCards_completes_row (s : State) (kids after : list Node)
    (Hlist : postList (dom s) = Some kids)
    (Hclean : remove_ghosts kids = kids)
    (Hwide : 1 < offsetWidth (layout (dom s)) / 350)
    (Hafter : postList (dom (addGhostCards s)) = Some after) :
  Z.rem (Z.of_nat (List.length after)) (offsetWidth (layout (dom s)) / 350) = 0.
Proof.
  rewrite (addGhostCards_postList s kids Hlist) in Hafter.
  simpl in Hafter. injection Hafter as <-.
  rewrite Hclean, length_app, repeat_length, Nat2Z.inj_add, Z2Nat.id
    by (apply ghostsNeeded_bound; lia).
  set (w := offsetWidth (layout (dom s))) in *.
  set (n := Z.of_nat (List.length kids)).
  destruct (Z.eq_dec (Z.rem n (w / 350)) 0) as [E|E].
  - unfold ghostsNeeded. rewrite E. simpl. rewrite andb_false_r.
    destruct (w <=? 0); rewrite Z.add_0_r; exact E.
  - apply (ghostsNeeded_ragged w n); [subst n; lia|exact Hwide|exact E].
Qed.

(** The theorem on four cards, three to a row: six children. *)
Lemma addGhostCards_completes_row_witness :
  exists after, postList (dom (addGhostCards Sample.four_cards)) = Some after
    /\ Z.rem (Z.of_nat (List.length after)) 3 = 0.
Proof.
  eexists. split; [reflexivity|].
  apply (addGhostCards_completes_row Sample.four_cards
           [ErrorPost; ErrorPost; ErrorPost; ErrorPost] _ eq_refl eq_refl).
  - vm_compute. reflexivity.
  - reflexivity.
Defined.

(** ** Listing pages *)

Lemma forEach_featured_records (ps : list Post) :
  forall (i : Z) (s : State) (f : list FeaturedNode),
    featured (dom s) = Some f ->
    forEach_featured (map Some ps) i s = set_featured (Some (f ++ featured_cards ps i)) s.
Proof.
  induction ps as [|p rest IH]; intros i s f H; cbn [map forEach_featured featured_cards].
  - rewrite app_nil_r. destruct s as [? ? ? ? ? ? ? ? d ? ? ? ?]. destruct d.
    simpl in H. subst. reflexivity.
  - unfold createFeaturedPost at 1. rewrite H.
    rewrite (IH _ _ (f ++ [FeaturedCard p i (featured_image p i)])) by reflexivity.
    rewrite <- app_assoc. reflexivity.
Qed.

Lemma regular_cards_records (ps : list Post) :
  map createRegularPost (map Some ps) = map (fun p => RegularCard p (regular_image p)) ps.
Proof. rewrite map_map. reflexivity. Qed.

Lemma firstn_map_Some (n : nat) (ps : list Post) :
  firstn n (map Some ps) = map Some (firstn n ps).
Proof. apply firstn_map. Qed.

Lemma skipn_map_Some (n : nat) (ps : list Post) :
  skipn n (map Some ps) = map Some (skipn n ps).
Proof. apply skipn_map. Qed.

(** X8: the first listing page, for any number of post records (at
    least one) on a page with its [#featured].  The first three records
    become the featured cards, numbered from 0, in place of what
    [#featured] held; [page_num] becomes 2 whatever [has_next] says.
    With more than three records the others are appended to the post
    list as regular cards and the filler runs; with three or fewer the
    post list is left exactly as it was. *)
Theorem first_page_any_size (s : State) (f : list FeaturedNode) (kids : list Node)
    (ps : list Post) (data : PageData)
    (Hpage : page_num s = 1)
    (Hfeatured : featured (dom s) = Some f)
    (Hlist : postList (dom s) = Some kids)
    (Hposts : blog_posts data = BPArray (map Some ps))
    (Hsome : ps <> []) :
  let s' := loadImages_data (JsonObject data) s in
  featured (dom s') = Some (featured_cards (firstn 3 ps) 0)
  /\ page_num s' = 2
  /\ isLoading s' = false
  /\ ((List.length ps <= 3)%nat -> postList (dom s') = Some kids)
  /\ ((3 < List.length ps)%nat ->
      exists g, postList (dom s')
        = Some (remove_ghosts kids
                ++ map (fun p => RegularCard p (regular_image p)) (skipn 3 ps)
                ++ repeat GhostCard g)).
Proof.
  cbv zeta. unfold loadImages_data.
  assert (Hgate : negb (has_next data) && (page_num s >? 1) = false)
    by (rewrite Hpage; apply andb_false_r).
  rewrite Hgate.
  assert (Hne : nonempty_array (BPArray (map Some ps)) = true)
    by (destruct ps; [congruence|reflexivity]).
  unfold render_listing. rewrite Hposts, Hpage, Hne. cbn [Z.eqb Pos.eqb andb items].
  rewrite Hfeatured. cbv zeta.
  rewrite firstn_map_Some, skipn_map_Some, length_map.
  rewrite (forEach_featured_records _ 0 _ []) by reflexivity.
  destruct (Z.gtb_spec (Z.of_nat (List.length ps)) 3) as [Hlong|Hshort].
  - cbn [postList dom set_featured set_dom]. rewrite Hlist.
    erewrite forEach_regular_postList by (cbn; exact Hlist).
    erewrite addGhostCards_postList by reflexivity.
    cbn. rewrite Hpage. repeat apply conj; try reflexivity.
    + intros H. lia.
    + intros _. eexists.
      rewrite remove_ghosts_app, remove_ghosts_cards, regular_cards_records, <- app_assoc.
      reflexivity.
  - cbn. rewrite Hpage. repeat apply conj; try reflexivity.
    + intros _. exact Hlist.
    + intros H. lia.
Qed.

(** The theorem for a first page of two posts on the sample page. *)
Lemma first_page_any_size_witness :
  let data := mkPage (BPArray [Some Sample.rust; Some Sample.rust]) false 0 in
  let s' := loadImages_data (JsonObject data) (initial Sample.page) in
  page_num s' = 2 /\ postList (dom s') = Some [].
Proof.
  cbv zeta.
  destruct (first_page_any_size (initial Sample.page) [] [] [Sample.rust; Sample.rust]
              (mkPage (BPArray [Some Sample.rust; Some Sample.rust]) false 0)
              eq_refl eq_refl eq_refl eq_refl ltac:(discriminate))
    as (_ & Hp & _ & Hshort & _).
  split; [exact Hp|]. apply Hshort. simpl. lia.
Defined.

(** X9: a later listing page (after the first) that announces more:
    every entry of [blog_posts], a record or not, gives one card, in
    order, appended to the post list behind the cards that were there;
    [#featured] is not touched, [page_num] advances by one and
    [isLoading] is false again. *)
Theorem later_page_appends (s : State) (kids : list Node) (posts : list (option Post))
    (data : PageData)
    (Hpage : 1 < page_num s)
    (Hlist : postList (dom s) = Some kids)
    (Hposts : blog_posts data = BPArray posts)
    (Hsome : posts <> [])
    (Hnext : has_next data = true) :
  let s' := loadImages_data (JsonObject data) s in
  (exists g, postList (dom s')
     = Some (remove_ghosts kids ++ map createRegularPost posts ++ repeat GhostCard g))
  /\ List.length (map createRegularPost posts) = List.length posts
  /\ featured (dom s') = featured (dom s)
  /\ page_num s' = page_num s + 1
  /\ isLoading s' = false.
Proof.
  cbv zeta. unfold loadImages_data. rewrite Hnext. cbn [negb andb].
  assert (Hne : nonempty_array (BPArray posts) = true)
    by (destruct posts; [congruence|reflexivity]).
  assert (R : render_listing data s = addGhostCards (forEach_regular posts s)).
  { unfold render_listing. rewrite Hposts, Hne.
    destruct (Z.eqb_spec (page_num s) 1); [lia|].
    destruct (Z.gtb_spec (page_num s) 1); [|lia].
    cbn. rewrite Hlist. reflexivity. }
  rewrite R.
  erewrite forEach_regular_postList by exact Hlist.
  erewrite addGhostCards_postList by reflexivity.
  cbn. repeat apply conj; try reflexivity.
  - eexists. rewrite remove_ghosts_app, remove_ghosts_cards, <- app_assoc. reflexivity.
  - apply length_map.
Qed.

(** The theorem for a second page with a record and a [null] entry. *)
Lemma later_page_appends_witness :
  let data := mkPage (BPArray [Some Sample.rust; None]) true 0 in
  let s' := loadImages_data (JsonObject data) (set_pending [] Sample.scrolled) in
  page_num s' = 3
  /\ exists g, postList (dom s')
       = Some ([RegularCard Sample.rust (regular_image Sample.rust); ErrorPost]
               ++ repeat GhostCard g).
Proof.
  cbv zeta.
  destruct (later_page_appends (set_pending [] Sample.scrolled) []
              [Some Sample.rust; None] (mkPage (BPArray [Some Sample.rust; None]) true 0)
              ltac:(vm_compute; reflexivity) eq_refl eq_refl ltac:(discriminate) eq_refl)
    as ((g & Hl) & _ & _ & Hp & _).
  split; [exact Hp|]. exists g. exact Hl.
Defined.

(** X10: after the first page, a response whose [has_next] is false is
    dropped whole: whatever posts it carries, none is rendered, the DOM
    and [page_num] stay as they were; only [isLoading] is lowered and the
    auto-fill check armed. *)
Theorem last_page_is_dropped (s : State) (data : PageData)
    (Hpage : 1 < page_num s) (Hlast : has_next data = false) :
  let s' := loadImages_data (JsonObject data) s in
  dom s' = dom s
  /\ page_num s' = page_num s
  /\ isLoading s' = false
  /\ requests s' = requests s
  /\ timers s' = timers s ++ [(100, CheckIfMoreContentNeeded)].
Proof.
  cbv zeta. unfold loadImages_data. rewrite Hlast.
  destruct (Z.gtb_spec (page_num s) 1); [|lia]. repeat split.
Qed.

(** The theorem for a last page that carries a post. *)
Lemma last_page_is_dropped_witness :
  blog_posts Sample.last_page = BPArray [Some Sample.rust]
  /\ postList (dom (loadImages_data (JsonObject Sample.last_page)
                      (set_pending [] Sample.scrolled)))
     = Some [].
Proof.
  split; [reflexivity|].
  destruct (last_page_is_dropped (set_pending [] Sample.scrolled) Sample.last_page
              ltac:(vm_compute; reflexivity) eq_refl) as (Hd & _).
  rewrite Hd. reflexivity.
Defined.

(** X11: on a page without [#featured] the first listing page renders
    nothing at all, not even the posts after the third that belong in
    [#post-list]; [page_num] advances to 2 all the same. *)
Theorem first_page_without_featured (s : State) (data : PageData)
    (Hpage : page_num s = 1) (Hmissing : featured (dom s) = None) :
  let s' := loadImages_data (JsonObject data) s in
  dom s' = dom s /\ page_num s' = 2 /\ isLoading s' = false.
Proof.
  cbv zeta. unfold loadImages_data, render_listing.
  rewrite Hpage, Hmissing. cbn. rewrite andb_false_r.
  destruct (nonempty_array (blog_posts data)); cbn; rewrite ?Hpage; repeat split.
Qed.

(** The theorem on the sample page stripped of [#featured], for a page
    of five posts. *)
Lemma first_page_without_featured_witness :
  let data := mkPage (BPArray (repeat (Some Sample.rust) 5)) true 0 in
  let s := set_featured None (initial Sample.page) in
  postList (dom (loadImages_data (JsonObject data) s)) = Some []
  /\ page_num (loadImages_data (JsonObject data) s) = 2.
Proof.
  cbv zeta.
  destruct (first_page_without_featured (set_featured None (initial Sample.page))
              (mkPage (BPArray (repeat (Some Sample.rust) 5)) true 0) eq_refl eq_refl)
    as (Hd & Hp & _).
  split; [rewrite Hd; reflexivity|exact Hp].
Defined.

(** ** One bad record in a batch *)

Lemma createFeaturedPost_grows (post : option Post) (i : Z) (s : State)
    (f : list FeaturedNode) (kids : list Node) :
  featured (dom s) = Some f -> postList (dom s) = Some kids ->
  exists cards banners,
    featured (dom (createFeaturedPost post i s)) = Some (f ++ cards)
    /\ postList (dom (createFeaturedPost post i s)) = Some (kids ++ banners)
    /\ match post with
       | Some p => cards = [FeaturedCard p i (featured_image p i)] /\ banners = []
       | None => cards = []
                 /\ exists id, banners = [ErrorBanner id "Error creating featured post"]
       end.
Proof.
  intros Hf Hk. unfold createFeaturedPost. rewrite Hf. destruct post as [p|].
  - exists [FeaturedCard p i (featured_image p i)], []. cbn.
    rewrite Hk, app_nil_r. repeat split.
  - exists [], [ErrorBanner (nextId s) "Error creating featured post"].
    unfold showErrorMessage, appendChild, setTimeout. cbn. rewrite Hk. cbn.
    rewrite Hf, app_nil_r. repeat split. eexists. reflexivity.
Qed.

(** X12: one entry that is not a record does not stop the featured
    batch.  Every record among the entries gets its featured card, with
    its own position as index, and every entry that is not a record
    gets an error banner in the post list; what [#featured] and the post
    list held before stays. *)
Theorem featured_batch_isolated (posts : list (option Post)) :
  forall (i : Z) (s : State) (f : list FeaturedNode) (kids : list Node),
    featured (dom s) = Some f -> postList (dom s) = Some kids ->
    exists cards banners,
      featured (dom (forEach_featured posts i s)) = Some (f ++ cards)
      /\ postList (dom (forEach_featured posts i s)) = Some (kids ++ banners)
      /\ (forall k p, nth_error posts k = Some (Some p) ->
            In (FeaturedCard p (i + Z.of_nat k) (featured_image p (i + Z.of_nat k))) cards)
      /\ (forall k, nth_error posts k = Some None ->
            exists id, In (ErrorBanner id "Error creating featured post") banners).
Proof.
  induction posts as [|post rest IH]; intros i s f kids Hf Hk.
  - exists [], []. cbn. rewrite Hf, Hk, !app_nil_r.
    split; [reflexivity|]. split; [reflexivity|].
    split; [intros [|k] p H; discriminate|intros [|k] H; discriminate].
  - cbn [forEach_featured].
    destruct (createFeaturedPost_grows post i s f kids Hf Hk)
      as (c1 & b1 & Hf1 & Hk1 & Hshape).
    destruct (IH (i + 1) _ _ _ Hf1 Hk1) as (c2 & b2 & Hf2 & Hk2 & Hcards & Hbanners).
    exists (c1 ++ c2), (b1 ++ b2). rewrite Hf2, Hk2, !app_assoc.
    split; [reflexivity|]. split; [reflexivity|]. split.
    + intros [|k] p Hnth; cbn in Hnth.
      * injection Hnth as ->. destruct Hshape as [-> _].
        rewrite Z.add_0_r. apply in_or_app. left. now left.
      * apply in_or_app. right.
        replace (i + Z.of_nat (S k)) with (i + 1 + Z.of_nat k) by lia.
        apply (Hcards k p Hnth).
    + intros [|k] Hnth; cbn in Hnth.
      * injection Hnth as ->. destruct Hshape as [_ [id ->]].
        exists id. apply in_or_app. left. now left.
      * destruct (Hbanners k Hnth) as [id Hin]. exists id. apply in_or_app. now right.
Qed.

(** The theorem for a record, a [null] and a record. *)
Lemma featured_batch_isolated_witness :
  exists cards,
    featured (dom (forEach_featured [Some Sample.rust; None; Some Sample.rust] 0
                     (initial Sample.page))) = Some cards
    /\ In (FeaturedCard Sample.rust 2 (featured_image Sample.rust 2)) cards.
Proof.
  destruct (featured_batch_isolated [Some Sample.rust; None; Some Sample.rust] 0
              (initial Sample.page) [] [] eq_refl eq_refl)
    as (cards & banners & Hf & _ & Hcards & _).
  exists cards. split; [exact Hf|].
  apply (Hcards 2%nat Sample.rust). reflexivity.
Defined.

(** ** Search responses, continued *)

Lemma forEach_regular_absent (posts : list (option Post)) (s : State) :
  postList (dom s) = None -> forEach_regular posts s = s.
Proof.
  intros H. unfold forEach_regular. induction posts as [|post rest IH]; simpl; [reflexivity|].
  unfold appendChild at 2. rewrite H. exact IH.
Qed.

(** X13: however a search fetch fails (the request is rejected, the
    status is not 2xx, the body is not JSON or is [null]), on a page
    with its [#post-list] the post list is replaced by the "search
    temporarily unavailable" notice, [isLoading] is lowered, and nothing
    else follows: no request, no timer, and the search state and the
    cursors are as before. *)
Theorem search_failure_shows_notice (query : string) (page : Z) (s s' : State)
    (kids : list Node)
    (Hlist : postList (dom s) = Some kids)
    (Hfail : SearchFailure query page s s') :
  postList (dom s') = Some [SearchError]
  /\ isLoading s' = false
  /\ requests s' = requests s
  /\ pending s' = pending s
  /\ timers s' = timers s
  /\ search_state s' = search_state s
  /\ (hasNext s' = hasNext s /\ currentPage s' = currentPage s /\ page_num s' = page_num s).
Proof.
  assert (H : postList (dom (search_failed s)) = Some [SearchError]
              /\ isLoading (search_failed s) = false
              /\ requests (search_failed s) = requests s
              /\ pending (search_failed s) = pending s
              /\ timers (search_failed s) = timers s
              /\ search_state (search_failed s) = search_state s
              /\ (hasNext (search_failed s) = hasNext s
                  /\ currentPage (search_failed s) = currentPage s
                  /\ page_num (search_failed s) = page_num s)).
  { unfold search_failed, showSearchError. rewrite Hlist. repeat split. }
  destruct Hfail as [|status Hstatus|].
  - exact H.
  - unfold search_response. rewrite Hstatus. exact H.
  - exact H.
Qed.

(** The theorem for a search answered with HTTP 503. *)
Lemma search_failure_shows_notice_witness :
  let sent := set_pending [] (step (ClickTag "rust") Sample.loaded) in
  postList (dom (search_response 503 "rust" 1 sent)) = Some [SearchError]
  /\ isSearchMode (search_response 503 "rust" 1 sent) = true.
Proof.
  cbv zeta.
  destruct (search_failure_shows_notice "rust" 1
              (set_pending [] (step (ClickTag "rust") Sample.loaded)) _
              [Loading "🔍 Searching by tag..."] eq_refl
              (search_fails_status _ _ _ 503 eq_refl))
    as (Hl & _ & _ & _ & _ & Hs & _).
  split; [exact Hl|]. exact (f_equal snd Hs).
Defined.

Lemma appendSearchResults_postList (l : list (option Post)) (s : State) (kids : list Node) :
  postList (dom s) = Some kids ->
  exists g,
    appendSearchResults (BPArray l) s
    = set_postList
        (Some (remove_ghosts kids ++ map createRegularPost l ++ repeat GhostCard g)) s.
Proof.
  intros H. unfold appendSearchResults. rewrite H.
  erewrite forEach_regular_postList by exact H.
  erewrite addGhostCards_postList by reflexivity.
  eexists. cbn. rewrite remove_ghosts_app, remove_ghosts_cards, <- app_assoc. reflexivity.
Qed.

(** X14: a search response for a page after the first keeps what the
    post list shows and appends one card per entry behind it (the filler
    then re-pads the row); the cursors become those of the response.  A
    [blog_posts] that is not an array leaves the post list as it is. *)
Theorem search_next_page_appends (s : State) (data : PageData) (query : string) (page : Z)
    (kids : list Node)
    (Hlist : postList (dom s) = Some kids) (Hpage : page <> 1) :
  let s' := search_data (JsonObject data) query page s in
  (forall posts, blog_posts data = BPArray posts ->
     exists g, postList (dom s')
       = Some (remove_ghosts kids ++ map createRegularPost posts ++ repeat GhostCard g))
  /\ (blog_posts data = BPOther true -> postList (dom s') = Some kids)
  /\ hasNext s' = Some (has_next data)
  /\ currentPage s' = Some page
  /\ isLoading s' = false.
Proof.
  cbv zeta. unfold search_data. cbv zeta.
  destruct (Z.eqb_spec page 1) as [|_]; [contradiction|].
  unfold updateSearchStatus, setTimeout.
  repeat apply conj.
  - intros posts Hp. rewrite Hp. cbn [items_or_empty].
    destruct (appendSearchResults_postList posts s kids Hlist) as (g & ->).
    exists g. split_tests; reflexivity.
  - intros Hp. rewrite Hp. unfold appendSearchResults. cbn. rewrite Hlist.
    split_tests; cbn; exact Hlist.
  - split_tests; reflexivity.
  - split_tests; reflexivity.
  - split_tests; reflexivity.
Qed.

(** The theorem for the second page of the sample tag search. *)
Lemma search_next_page_appends_witness :
  let s' := search_data (JsonObject Sample.hits) "rust" 2
              (set_timers [] Sample.short_search) in
  currentPage s' = Some 2 /\ hasNext s' = Some false.
Proof.
  cbv zeta.
  destruct (search_next_page_appends (set_timers [] Sample.short_search) Sample.hits
              "rust" 2 _ eq_refl ltac:(discriminate)) as (_ & _ & Hn & Hp & _).
  split; [exact Hp|exact Hn].
Defined.





(** ** Tag filter and clearing *)

(** X16: filtering by a tag is a search for the tag.  For a tag name
    that is not empty, on a page with its post list, [filterByTag]
    leaves the same search state, cursors, flag, requests, pending
    fetches and timers as [performSearch] with the tag as query; it
    differs in what it shows: the tag is written into the search box and
    the section is titled [Posts tagged "..."].  For the empty tag name
    it does nothing at all. *)
Theorem filterByTag_is_a_search (c : ascii) (t : string) (s : State) (kids : list Node)
    (box title : string)
    (Hlist : postList (dom s) = Some kids)
    (Hbox : searchInput (dom s) = Some box)
    (Htitle : sectionTitle (dom s) = Some title) :
  let tag := String c t in
  let a := filterByTag tag s in
  let b := performSearch tag s in
  (search_state a = search_state b /\ search_state a = (tag, tag, true))
  /\ cursors a = cursors b
  /\ isLoading a = isLoading b
  /\ requests a = requests b
  /\ timers a = timers b
  /\ featured (dom a) = featured (dom b)
  /\ (searchInput (dom a) = Some tag /\ searchInput (dom b) = Some box)
  /\ (sectionTitle (dom a) = Some ("Posts tagged " ++ dquote ++ tag ++ dquote)%string
      /\ sectionTitle (dom b)
         = Some ("Search Results for " ++ dquote ++ tag ++ dquote)%string)
  /\ filterByTag "" s = s.
Proof.
  cbv zeta.
  destruct s as [pn il cq ct m hn cp st [f pl si ss ti sa l] pe tm rq ni].
  simpl in Hlist, Hbox, Htitle. subst pl si ti. repeat split.
Qed.

(** The scenario of a click on the chip "career". *)
Lemma filterByTag_is_a_search_witness :
  sectionTitle (dom (filterByTag "career" Sample.loaded))
  = Some ("Posts tagged " ++ dquote ++ "career" ++ dquote)%string
  /\ search_state (filterByTag "career" Sample.loaded) = ("career", "career", true).
Proof.
  destruct (filterByTag_is_a_search "c" "areer" Sample.loaded [] "" "All Posts"
              eq_refl eq_refl eq_refl) as ((_ & Hs) & _ & _ & _ & _ & _ & _ & (Ht & _) & _).
  split; [exact Ht|exact Hs].
Defined.

(** X17: clearing the search while [isLoading] is set does not reload
    the listing.  The containers are emptied and the state reset, but
    the call of [loadImages] at the end stops at its guard: no request
    is sent; its [finally] block lowers the flag. *)
Theorem clearSearch_while_loading (s : State) (f : list FeaturedNode) (kids : list Node)
    (Hbusy : isLoading s = true)
    (Hfeatured : featured (dom s) = Some f)
    (Hlist : postList (dom s) = Some kids) :
  let s' := clearSearch s in
  requests s' = requests s
  /\ pending s' = pending s
  /\ postList (dom s') = Some []
  /\ featured (dom s') = Some []
  /\ page_num s' = 1
  /\ isLoading s' = false
  /\ search_state s' = ("", "", false).
Proof.
  cbv zeta.
  destruct s as [pn il cq ct m hn cp st [fe pl [si|] [ss|] [ti|] sa l] pe tm rq ni];
    simpl in Hbusy, Hfeatured, Hlist; subst il fe pl; repeat split.
Qed.

(** The theorem when the clear button is clicked while listing page 2 is
    on its way. *)
Lemma clearSearch_while_loading_witness :
  isLoading Sample.scrolled = true
  /\ requests (clearSearch Sample.scrolled) = ["?page=1"; "?page=2"]
  /\ postList (dom (clearSearch Sample.scrolled)) = Some [].
Proof.
  split; [reflexivity|].
  destruct (clearSearch_while_loading Sample.scrolled _ [] eq_refl eq_refl eq_refl)
    as (Hr & _ & Hl & _).
  split; [exact Hr|exact Hl].
Defined.

(** ** What rendering and request bookkeeping leave alone *)

Section Framing.

Context {A : Type} (view : State -> A) (F : Frame view).

Ltac dom_setters :=
  unfold set_postList, set_featured, set_searchInput, set_searchStatus, set_sectionTitle,
    set_searchActive, set_layout.

Ltac framed :=
  dom_setters;
  repeat first
    [ rewrite (frame_dom _ F)
    | rewrite (frame_nextId _ F)
    | rewrite (frame_isLoading _ F)
    | rewrite (frame_requests _ F)
    | rewrite (frame_pending _ F)
    | rewrite (frame_timer _ F) by reflexivity ];
  try reflexivity.

Lemma appendChild_frame n s : view (appendChild n s) = view s.
Proof. unfold appendChild. destruct (postList (dom s)); framed. Qed.

Lemma showErrorMessage_frame m s : view (showErrorMessage m s) = view s.
Proof. unfold showErrorMessage. cbv zeta. framed. rewrite appendChild_frame. framed. Qed.

Lemma removeBanner_frame id s : view (removeBanner id s) = view s.
Proof. unfold removeBanner. destruct (postList (dom s)); framed. Qed.

Lemma addGhostCards_frame s : view (addGhostCards s) = view s.
Proof.
  destruct (postList (dom s)) as [kids|] eqn:E.
  - rewrite (addGhostCards_postList s kids E). framed.
  - now rewrite (addGhostCards_absent s E).
Qed.

Lemma forEach_regular_frame posts s : view (forEach_regular posts s) = view s.
Proof.
  destruct (postList (dom s)) as [kids|] eqn:E.
  - rewrite (forEach_regular_postList posts s kids E). framed.
  - now rewrite (forEach_regular_absent posts s E).
Qed.

Lemma createFeaturedPost_frame post i s : view (createFeaturedPost post i s) = view s.
Proof.
  unfold createFeaturedPost.
  destruct post, (featured (dom s)); try apply showErrorMessage_frame. framed.
Qed.

Lemma forEach_featured_frame posts : forall i s, view (forEach_featured posts i s) = view s.
Proof.
  induction posts as [|post rest IH]; intros i s; cbn [forEach_featured]; [reflexivity|].
  rewrite IH. apply createFeaturedPost_frame.
Qed.

Lemma render_listing_frame data s : view (render_listing data s) = view s.
Proof.
  unfold render_listing. cbv zeta. split_tests; try reflexivity;
    rewrite ?addGhostCards_frame, ?forEach_regular_frame, ?forEach_featured_frame; framed.
Qed.

Lemma loadImages_finally_frame s : view (loadImages_finally s) = view s.
Proof. unfold loadImages_finally. framed. Qed.

Lemma loadImages_catch_frame s : view (loadImages_catch s) = view s.
Proof. apply showErrorMessage_frame. Qed.

Lemma loadImages_frame s : view (loadImages s) = view s.
Proof.
  unfold loadImages, fetch. cbv zeta.
  destruct (isLoading s); [apply loadImages_finally_frame|framed].
Qed.

Lemma loadImages_rejected_frame s : view (loadImages_rejected s) = view s.
Proof.
  unfold loadImages_rejected. now rewrite loadImages_finally_frame, loadImages_catch_frame.
Qed.

Lemma loadImages_response_frame status s : view (loadImages_response status s) = view s.
Proof.
  unfold loadImages_response. destruct (response_ok status); [framed|].
  now rewrite loadImages_finally_frame, loadImages_catch_frame.
Qed.

Lemma showSearchError_frame s : view (showSearchError s) = view s.
Proof. unfold showSearchError. destruct (postList (dom s)); framed. Qed.

Lemma loadSearchResults_frame query page s : view (loadSearchResults query page s) = view s.
Proof.
  unfold loadSearchResults, loadSearchResults_run, loadSearchResults_try, fetch. cbv zeta.
  destruct (coerce_query query); cbn [completed]; framed.
  apply showSearchError_frame.
Qed.

Lemma search_failed_frame s : view (search_failed s) = view s.
Proof. unfold search_failed. framed. apply showSearchError_frame. Qed.

Lemma search_response_frame status q p s : view (search_response status q p s) = view s.
Proof.
  unfold search_response. destruct (response_ok status); [framed|apply search_failed_frame].
Qed.

Lemma displaySearchResults_frame posts s : view (displaySearchResults posts s) = view s.
Proof.
  unfold displaySearchResults. cbv zeta. split_tests;
    rewrite ?addGhostCards_frame, ?forEach_regular_frame, ?showSearchError_frame; framed.
Qed.

Lemma appendSearchResults_frame posts s : view (appendSearchResults posts s) = view s.
Proof.
  unfold appendSearchResults. split_tests;
    rewrite ?addGhostCards_frame, ?forEach_regular_frame; framed.
Qed.

Lemma updateSearchStatus_frame n q s : view (updateSearchStatus n q s) = view s.
Proof. unfold updateSearchStatus. cbv zeta. split_tests; framed. Qed.

Lemma clear_containers_frame s : view (clear_containers s) = view s.
Proof. unfold clear_containers. cbv zeta. split_tests; framed. Qed.

Lemma set_title_frame t s : view (set_title t s) = view s.
Proof. unfold set_title. destruct (sectionTitle (dom s)); framed. Qed.

Lemma checkIfMoreContentNeeded_frame s : view (checkIfMoreContentNeeded s) = view s.
Proof. unfold checkIfMoreContentNeeded. framed. Qed.

Lemma check_inner_frame s : view (check_inner s) = view s.
Proof.
  unfold check_inner. cbv zeta. split_tests; try reflexivity.
  - rewrite loadSearchResults_frame. framed.
  - apply loadImages_frame.
Qed.

(** The parts that write the paging cursors, for a view that does not
    look at them. *)
Section Cursors.

Hypothesis Hpage : forall v s, view (set_page_num v s) = view s.
Hypothesis HhasNext : forall v s, view (set_hasNext v s) = view s.
Hypothesis HcurrentPage : forall v s, view (set_currentPage v s) = view s.

Lemma loadImages_data_frame d s : view (loadImages_data d s) = view s.
Proof.
  unfold loadImages_data. cbv zeta. split_tests; rewrite loadImages_finally_frame.
  - apply loadImages_catch_frame.
  - framed.
  - rewrite Hpage. apply render_listing_frame.
Qed.

Lemma search_data_frame d q p s : view (search_data d q p s) = view s.
Proof.
  unfold search_data. cbv zeta. destruct d as [|data]; [apply search_failed_frame|].
  framed. rewrite updateSearchStatus_frame, HcurrentPage, HhasNext.
  destruct (p =? 1); [apply displaySearchResults_frame|apply appendSearchResults_frame].
Qed.

Lemma settle_frame i o s : view (settle i o s) = view s.
Proof.
  unfold settle. cbv zeta. destruct (nth_error (pending s) i) as [k|]; [|reflexivity].
  destruct k, o; try reflexivity;
    rewrite ?loadImages_rejected_frame, ?loadImages_response_frame, ?loadImages_data_frame,
      ?search_failed_frame, ?search_response_frame, ?search_data_frame; framed.
Qed.

End Cursors.

End Framing.

(** ** The search state *)

Lemma search_state_frame : Frame search_state.
Proof. split; reflexivity. Qed.

Lemma run_app (es es' : list Event) (s : State) : run (es ++ es') s = run es' (run es s).
Proof. apply fold_left_app. Qed.

Lemma run_reachable (d : Dom) (es : list Event) : reachable d (run es (boot d)).
Proof.
  induction es as [|e es IH] using rev_ind; [apply reach_boot|].
  rewrite run_app. apply reach_step, IH.
Qed.

Lemma performSearch_state (q : string) (s : State) :
  search_state (performSearch q s) = (q, q, negb (String.eqb q "")).
Proof.
  destruct s as [pn [|] cq ct m hn cp st [[f|] [pl|] si ss [ti|] sa l] pe tm rq ni];
    destruct q; reflexivity.
Qed.

Lemma filterByTag_state (t : string) (s : State) :
  search_state (filterByTag t s) = if String.eqb t "" then search_state s else (t, t, true).
Proof.
  destruct s as [pn il cq ct m hn cp st [f [pl|] [si|] ss [ti|] sa l] pe tm rq ni];
    destruct t; reflexivity.
Qed.

Lemma clearSearch_state (s : State) : search_state (clearSearch s) = ("", "", false).
Proof.
  destruct s as [pn [|] cq ct m hn cp st [[f|] [pl|] [si|] [ss|] [ti|] sa l] pe tm rq ni];
    reflexivity.
Qed.

Lemma scroll_check_state (s : State) : search_state (scroll_check s) = search_state s.
Proof.
  unfold scroll_check. cbv zeta.
  split_tests;
    rewrite ?(loadSearchResults_frame _ search_state_frame),
      ?(loadImages_frame _ search_state_frame); reflexivity.
Qed.

Lemma search_input_fire_state (s : State) :
  search_state (search_input_fire s) = search_state s
  \/ exists q, search_state (search_input_fire s) = (q, q, negb (String.eqb q "")).
Proof.
  unfold search_input_fire. cbv zeta. split_tests; try (now left).
  right. eexists. apply performSearch_state.
Qed.

Lemma run_callback_state (cb : Callback) (s : State) :
  cb <> SearchInputFire -> search_state (run_callback cb s) = search_state s.
Proof.
  intros H. destruct cb; cbn [run_callback].
  - apply (checkIfMoreContentNeeded_frame _ search_state_frame).
  - apply (check_inner_frame _ search_state_frame).
  - apply (removeBanner_frame _ search_state_frame).
  - apply scroll_check_state.
  - apply (addGhostCards_frame _ search_state_frame).
  - contradiction.
Qed.

Lemma settle_state (i : nat) (o : Outcome) (s : State) :
  search_state (settle i o s) = search_state s.
Proof. apply (settle_frame _ search_state_frame); reflexivity. Qed.

Lemma search_mode_ok_of (s : State) (q : string) :
  search_state s = (q, q, negb (String.eqb q "")) -> search_mode_ok s.
Proof. unfold search_state, search_mode_ok. intros [= -> -> ->]. split; reflexivity. Qed.

Lemma search_mode_ok_same (s s' : State) :
  search_state s' = search_state s -> search_mode_ok s -> search_mode_ok s'.
Proof.
  unfold search_state, search_mode_ok. intros [= Hq Ht Hm] [H1 H2].
  rewrite Hq, Ht, Hm. now split.
Qed.

Lemma step_search_mode_ok (e : Event) (s : State) :
  search_mode_ok s -> search_mode_ok (step e s).
Proof.
  intros H. destruct e; cbn [step];
    try match goal with
        | |- context [if supportsAjax s then _ else _] => destruct (supportsAjax s)
        end; try exact H.
  - apply (search_mode_ok_same s); [|exact H]. unfold on_scroll. now destruct (scrollTimeout s).
  - eapply search_mode_ok_of, performSearch_state.
  - apply (search_mode_ok_same s); [|exact H]. unfold on_input.
    now destruct (searchInput (dom s)).
  - apply (search_mode_ok_of _ ""), clearSearch_state.
  - unfold on_pill.
    destruct (negb (truthy (JStr tagName)) || String.eqb tagName "All").
    + apply (search_mode_ok_of _ ""), clearSearch_state.
    + pose proof (filterByTag_state tagName s) as Hs.
      destruct (String.eqb tagName "") eqn:E.
      * apply (search_mode_ok_same s _ Hs H).
      * apply (search_mode_ok_of _ tagName). now rewrite Hs, E.
  - pose proof (filterByTag_state (trim tagName) s) as Hs.
    destruct (String.eqb (trim tagName) "") eqn:E.
    + apply (search_mode_ok_same s _ Hs H).
    + apply (search_mode_ok_of _ (trim tagName)). now rewrite Hs, E.
  - unfold fire. destruct (nth_error (timers s) i) as [[ms cb]|]; [|exact H].
    destruct cb.
    1-5: apply (search_mode_ok_same s); [|exact H];
         rewrite run_callback_state by discriminate; reflexivity.
    cbn [run_callback].
    destruct (search_input_fire_state (set_timers (remove_at i (timers s)) s)) as [Hs|[q Hs]].
    + apply (search_mode_ok_same s); [|exact H]. now rewrite Hs.
    + apply (search_mode_ok_of _ q Hs).
  - apply (search_mode_ok_same s); [apply settle_state|exact H].
Qed.

Lemma reachable_search_mode_ok (d : Dom) (s : State) : reachable d s -> search_mode_ok s.
Proof.
  induction 1 as [|e s _ IH]; [|apply step_search_mode_ok, IH].
  unfold boot, loadImages, initial. split; reflexivity.
Qed.

(** X18: in every state the script reaches, on any page and after any
    sequence of events, the current tag is the current query and search
    mode is on exactly when the query is not empty. *)
Theorem search_mode_invariant (d : Dom) (es : list Event) :
  let s := run es (boot d) in
  currentTag s = currentSearchQuery s
  /\ (isSearchMode s = true <-> currentSearchQuery s <> "").
Proof.
  cbv zeta. destruct (reachable_search_mode_ok d _ (run_reachable d es)) as [Ht Hm].
  split; [exact Ht|]. rewrite Hm.
  destruct (String.eqb_spec (currentSearchQuery (run es (boot d))) ""); simpl;
    split; congruence.
Qed.

(** X19: the search state is written by the user's requests only.  No
    settled promise, whatever its outcome, and no timer other than the
    debounce of the search box changes the query, the tag or the mode;
    nor does a scroll, a resize or a new layout. *)
Theorem search_state_untouched (s : State) :
  (forall i o, search_state (settle i o s) = search_state s)
  /\ (forall cb, cb <> SearchInputFire -> search_state (run_callback cb s) = search_state s)
  /\ (forall e, passive e = true ->
        (forall i ms, e = Fire i -> nth_error (timers s) i <> Some (ms, SearchInputFire)) ->
        search_state (step e s) = search_state s).
Proof.
  split; [intros i o; apply settle_state|]. split; [intros cb; apply run_callback_state|].
  intros e He Hfire. destruct e; try discriminate; cbn [step].
  - unfold on_scroll. now destruct (scrollTimeout s).
  - reflexivity.
  - reflexivity.
  - unfold fire. destruct (nth_error (timers s) i) as [[ms cb]|] eqn:E; [|reflexivity].
    rewrite run_callback_state; [reflexivity|].
    intros ->. apply (Hfire i ms eq_refl). exact E.
Qed.

(** The theorem when the late answer of a cleared search arrives. *)
Lemma search_state_untouched_witness :
  search_state
    (run_callback ScrollCheck
       (settle 1 (JsonValue (JsonObject Sample.hits))
          (settle 0 (FetchResponse 200) Sample.cleared)))
  = ("", "", false).
Proof.
  destruct (search_state_untouched
              (settle 1 (JsonValue (JsonObject Sample.hits))
                 (settle 0 (FetchResponse 200) Sample.cleared))) as (_ & Hcb & _).
  rewrite (Hcb ScrollCheck ltac:(discriminate)).
  destruct (search_state_untouched (settle 0 (FetchResponse 200) Sample.cleared))
    as (Hsettle & _).
  rewrite Hsettle.
  destruct (search_state_untouched Sample.cleared) as (Hsettle' & _).
  rewrite Hsettle'. reflexivity.
Defined.

(** ** The listing cursor *)

Lemma page_num_frame : Frame page_num.
Proof. split; reflexivity. Qed.

Lemma loadImages_data_page (d : JsonData) (s : State) :
  page_num (loadImages_data d s)
  = match d with
    | JsonNull => page_num s
    | JsonObject data =>
        if negb (has_next data) && (page_num s >? 1) then page_num s else page_num s + 1
    end.
Proof.
  destruct d as [|data]; cbn [loadImages_data].
  - now rewrite (loadImages_finally_frame _ page_num_frame),
      (loadImages_catch_frame _ page_num_frame).
  - destruct (negb (has_next data) && (page_num s >? 1)).
    + now rewrite (loadImages_finally_frame _ page_num_frame).
    + cbv zeta. rewrite (loadImages_finally_frame _ page_num_frame).
      change (page_num (render_listing data s) + 1 = page_num s + 1).
      now rewrite (render_listing_frame _ page_num_frame).
Qed.

Lemma performSearch_page (q : string) (s : State) :
  page_num (performSearch q s) = if String.eqb q "" then 1 else page_num s.
Proof.
  destruct s as [pn [|] cq ct m hn cp st [[f|] [pl|] si ss [ti|] sa l] pe tm rq ni];
    destruct q; reflexivity.
Qed.

Lemma filterByTag_page (t : string) (s : State) : page_num (filterByTag t s) = page_num s.
Proof.
  destruct s as [pn il cq ct m hn cp st [f [pl|] [si|] ss [ti|] sa l] pe tm rq ni];
    destruct t; reflexivity.
Qed.

Lemma clearSearch_page (s : State) : page_num (clearSearch s) = 1.
Proof.
  destruct s as [pn [|] cq ct m hn cp st [[f|] [pl|] [si|] [ss|] [ti|] sa l] pe tm rq ni];
    reflexivity.
Qed.

Lemma scroll_check_page (s : State) : page_num (scroll_check s) = page_num s.
Proof.
  unfold scroll_check. cbv zeta.
  split_tests;
    rewrite ?(loadSearchResults_frame _ page_num_frame),
      ?(loadImages_frame _ page_num_frame); reflexivity.
Qed.

Lemma run_callback_page (cb : Callback) (s : State) :
  page_num (run_callback cb s) = page_num s \/ page_num (run_callback cb s) = 1.
Proof.
  destruct cb; cbn [run_callback].
  - left. apply (checkIfMoreContentNeeded_frame _ page_num_frame).
  - left. apply (check_inner_frame _ page_num_frame).
  - left. apply (removeBanner_frame _ page_num_frame).
  - left. apply scroll_check_page.
  - left. apply (addGhostCards_frame _ page_num_frame).
  - unfold search_input_fire. cbv zeta. split_tests; try (now left).
    rewrite performSearch_page. destruct (String.eqb _ ""); [now right|now left].
Qed.

(** X20: the listing cursor moves in two ways only.  Any event either
    leaves [page_num] as it is, or resets it to 1, or is the arrival of
    the parsed body of a listing response, which advances it by exactly
    one (and then the body said [has_next], or the cursor stood at the
    first page). *)
Theorem page_num_moves (e : Event) (s : State) :
  page_num (step e s) = page_num s
  \/ page_num (step e s) = 1
  \/ exists i data,
       e = Settle i (JsonValue (JsonObject data))
       /\ nth_error (pending s) i = Some LJson
       /\ (has_next data = true \/ page_num s <= 1)
       /\ page_num (step e s) = page_num s + 1.
Proof.
  destruct e; cbn [step];
    try match goal with
        | |- context [if supportsAjax s then _ else _] => destruct (supportsAjax s)
        end; try (now left).
  - left. unfold on_scroll. now destruct (scrollTimeout s).
  - unfold on_submit. cbv zeta. rewrite performSearch_page.
    destruct (String.eqb _ ""); [right|]; now left.
  - left. unfold on_input. now destruct (searchInput (dom s)).
  - right. left. apply clearSearch_page.
  - unfold on_pill. destruct (negb (truthy (JStr tagName)) || String.eqb tagName "All").
    + right. left. apply clearSearch_page.
    + left. apply filterByTag_page.
  - left. apply filterByTag_page.
  - unfold fire. destruct (nth_error (timers s) i) as [[ms cb]|]; [|now left].
    destruct (run_callback_page cb (set_timers (remove_at i (timers s)) s)) as [H|H];
      [left|right; left]; exact H.
  - unfold settle. cbv zeta. destruct (nth_error (pending s) i) as [k|] eqn:Hk; [|now left].
    destruct k, o; try (now left).
    + left. now rewrite (loadImages_rejected_frame _ page_num_frame).
    + left. now rewrite (loadImages_response_frame _ page_num_frame).
    + left. now rewrite (loadImages_rejected_frame _ page_num_frame).
    + rewrite loadImages_data_page. destruct d as [|data]; [now left|].
      change (page_num (set_pending (remove_at i (pending s)) s)) with (page_num s).
      destruct (negb (has_next data) && (page_num s >? 1)) eqn:E; [now left|].
      right. right. exists i, data.
      split; [reflexivity|]. split; [exact Hk|]. split; [|reflexivity].
      destruct (has_next data); [now left|right].
      simpl in E. destruct (Z.gtb_spec (page_num s) 1); [discriminate|lia].
    + left. now rewrite (search_failed_frame _ page_num_frame).
    + left. now rewrite (search_response_frame _ page_num_frame).
    + left. now rewrite (search_failed_frame _ page_num_frame).
    + left. now rewrite (search_data_frame _ page_num_frame) by reflexivity.
Qed.

(** ** The busy flag *)

Lemma search_data_lowers (d : JsonData) (q : string) (p : Z) (s : State) :
  isLoading (search_data d q p s) = false.
Proof. destruct d; reflexivity. Qed.

Lemma loadImages_data_lowers (d : JsonData) (s : State) :
  isLoading (loadImages_data d s) = false.
Proof.
  destruct d as [|data]; cbn [loadImages_data]; [reflexivity|].
  now destruct (negb (has_next data) && (page_num s >? 1)).
Qed.

(** X21: whenever a promise chain ends, [isLoading] is false afterwards:
    a rejected fetch, a status outside 2xx, a body that does not parse
    and a parsed body all lower the flag, for the listing and for the
    search, whatever else is still pending.  A 2xx response, which only
    starts the parsing of the body, leaves the flag as it is. *)
Theorem isLoading_after_settle (i : nat) (k : Pending) (o : Outcome) (s : State) :
  nth_error (pending s) i = Some k ->
  isLoading (settle i o s) = if terminal k o then false else isLoading s.
Proof.
  intros Hk. unfold settle. rewrite Hk. cbv zeta.
  destruct k, o; cbn [terminal]; try reflexivity.
  - unfold loadImages_response. now destruct (response_ok status).
  - apply loadImages_data_lowers.
  - unfold search_response. now destruct (response_ok status).
  - apply search_data_lowers.
Qed.

(** The theorem when the answer of a search arrives while a page of the
    listing is still awaited: the flag drops although a fetch is pending. *)
Lemma isLoading_after_settle_witness :
  let s := run [Scroll; Fire 0; InputSearch "rust"; Fire 0] Sample.loaded in
  pending s = [LFetch; SFetch "rust" 1]
  /\ isLoading s = true
  /\ isLoading (settle 1 FetchRejected s) = false
  /\ pending (settle 1 FetchRejected s) = [LFetch].
Proof.
  cbv zeta. split; [vm_compute; reflexivity|]. split; [vm_compute; reflexivity|].
  split; [|vm_compute; reflexivity].
  rewrite (isLoading_after_settle 1 (SFetch "rust" 1) FetchRejected); [reflexivity|].
  vm_compute. reflexivity.
Defined.

(** ** The three debounces *)

Section Debounce.

Local Open Scope nat_scope.

Lemma callback_eqb_refl (cb : Callback) : callback_eqb cb cb = true.
Proof. destruct cb; simpl; auto using Nat.eqb_refl. Qed.

Lemma callback_eqb_eq (a b : Callback) : callback_eqb a b = true -> a = b.
Proof.
  destruct a, b; simpl; intros H; try discriminate; try reflexivity.
  apply Nat.eqb_eq in H. now subst.
Qed.

Lemma armed_in_app (cb : Callback) (ts ts' : list Timer) :
  armed_in cb (ts ++ ts') = armed_in cb ts + armed_in cb ts'.
Proof.
  induction ts as [|[ms c] ts IH]; simpl; [reflexivity|].
  rewrite IH. apply Nat.add_assoc.
Qed.

Lemma armed_in_cleared (cb : Callback) (ts : list Timer) :
  armed_in cb (filter (fun t => negb (callback_eqb (snd t) cb)) ts) = 0.
Proof.
  induction ts as [|[ms c] ts IH]; simpl; [reflexivity|].
  destruct (callback_eqb c cb) eqn:E; simpl; [exact IH|]. now rewrite E, IH.
Qed.

Lemma armed_in_kept (cb cb' : Callback) (ts : list Timer) :
  cb' <> cb ->
  armed_in cb' (filter (fun t => negb (callback_eqb (snd t) cb)) ts) = armed_in cb' ts.
Proof.
  intros Hne. induction ts as [|[ms c] ts IH]; simpl; [reflexivity|].
  destruct (callback_eqb c cb) eqn:E; simpl.
  - destruct (callback_eqb c cb') eqn:E'; [|exact IH].
    apply callback_eqb_eq in E, E'. congruence.
  - now rewrite IH.
Qed.

Lemma armed_in_remove_at (cb' : Callback) (ts : list Timer) :
  forall (i : nat) (ms : Z) (cb : Callback),
    nth_error ts i = Some (ms, cb) ->
    armed_in cb' ts = (if callback_eqb cb cb' then 1 else 0) + armed_in cb' (remove_at i ts).
Proof.
  induction ts as [|[ms0 c] ts IH]; intros [|i] ms cb H; simpl in H; try discriminate.
  - injection H as -> ->. reflexivity.
  - simpl. rewrite (IH i ms cb H). lia.
Qed.

Lemma debounce_frame : Frame debounce_view.
Proof.
  split; try reflexivity.
  intros ms cb s Hq. unfold debounce_view, armed, setTimeout. cbn.
  rewrite !armed_in_app. destruct cb; try discriminate; simpl; now rewrite !Nat.add_0_r.
Qed.

Lemma debounce_ok_of (s : State) (f : bool) (a b c : nat) :
  debounce_view s = (f, a, b, c) ->
  a = (if f then 1 else 0) -> b <= 1 -> c <= 1 -> debounce_ok s.
Proof.
  unfold debounce_view, debounce_ok. intros [= <- <- <- <-] Ha Hb Hc. auto.
Qed.

Lemma debounce_ok_same (s s' : State) :
  debounce_view s' = debounce_view s -> debounce_ok s -> debounce_ok s'.
Proof.
  intros H (Ha & Hb & Hc). apply (debounce_ok_of s' _ _ _ _ H); assumption.
Qed.

Lemma performSearch_debounce (q : string) (s : State) :
  debounce_view (performSearch q s) = debounce_view s.
Proof.
  unfold performSearch. cbv zeta.
  split_tests;
    rewrite ?(loadSearchResults_frame _ debounce_frame), ?(loadImages_frame _ debounce_frame),
      ?(clear_containers_frame _ debounce_frame);
    unfold set_postList, set_searchActive;
    rewrite ?(frame_dom _ debounce_frame), ?(set_title_frame _ debounce_frame);
    unfold set_searchActive; rewrite ?(frame_dom _ debounce_frame); reflexivity.
Qed.

Lemma filterByTag_debounce (t : string) (s : State) :
  debounce_view (filterByTag t s) = debounce_view s.
Proof.
  unfold filterByTag. cbv zeta.
  split_tests;
    rewrite ?(loadSearchResults_frame _ debounce_frame);
    unfold set_postList;
    rewrite ?(frame_dom _ debounce_frame), ?(set_title_frame _ debounce_frame);
    reflexivity.
Qed.

Lemma clearSearch_debounce (s : State) : debounce_view (clearSearch s) = debounce_view s.
Proof.
  unfold clearSearch. cbv zeta.
  rewrite (loadImages_frame _ debounce_frame), (set_title_frame _ debounce_frame),
    (clear_containers_frame _ debounce_frame).
  split_tests; reflexivity.
Qed.

Lemma scroll_check_debounce (s : State) :
  debounce_view (scroll_check s)
  = (false, armed ScrollCheck s, armed ResizeFill s, armed SearchInputFire s).
Proof.
  unfold scroll_check. cbv zeta.
  split_tests;
    rewrite ?(loadSearchResults_frame _ debounce_frame), ?(loadImages_frame _ debounce_frame);
    reflexivity.
Qed.

Lemma search_input_fire_debounce (s : State) :
  debounce_view (search_input_fire s) = debounce_view s.
Proof.
  unfold search_input_fire. cbv zeta. split_tests; try reflexivity.
  apply performSearch_debounce.
Qed.

Lemma on_pill_debounce (t : string) (s : State) :
  debounce_view (on_pill t s) = debounce_view s.
Proof.
  unfold on_pill. split_tests; [apply clearSearch_debounce|apply filterByTag_debounce].
Qed.

Lemma on_scroll_debounce (s : State) : debounce_ok s -> debounce_ok (on_scroll s).
Proof.
  intros (Ha & Hb & Hc). unfold on_scroll. destruct (scrollTimeout s) eqn:E.
  - unfold debounce_ok. rewrite E. auto.
  - unfold debounce_ok, armed in *. cbn. rewrite !armed_in_app. simpl. lia.
Qed.

Lemma on_resize_debounce (s : State) : debounce_ok s -> debounce_ok (on_resize s).
Proof.
  intros (Ha & Hb & Hc). unfold debounce_ok, armed, on_resize in *. cbn.
  rewrite !armed_in_app, armed_in_cleared, !armed_in_kept by discriminate. simpl. lia.
Qed.

Lemma on_input_debounce (v : string) (s : State) : debounce_ok s -> debounce_ok (on_input v s).
Proof.
  intros H. unfold on_input. destruct (searchInput (dom s)); [|exact H].
  destruct H as (Ha & Hb & Hc). unfold debounce_ok, armed in *. cbn.
  rewrite !armed_in_app, armed_in_cleared, !armed_in_kept by discriminate. simpl. lia.
Qed.

Lemma fire_debounce (i : nat) (s : State) : debounce_ok s -> debounce_ok (fire i s).
Proof.
  intros H. unfold fire. destruct (nth_error (timers s) i) as [[ms cb]|] eqn:E; [|exact H].
  destruct H as (Ha & Hb & Hc). unfold armed in *.
  pose proof (armed_in_remove_at ScrollCheck _ i ms cb E) as Esc.
  pose proof (armed_in_remove_at ResizeFill _ i ms cb E) as Erf.
  pose proof (armed_in_remove_at SearchInputFire _ i ms cb E) as Esi.
  set (s0 := set_timers (remove_at i (timers s)) s).
  assert (H0 : debounce_view s0
               = (scrollTimeout s, armed_in ScrollCheck (remove_at i (timers s)),
                  armed_in ResizeFill (remove_at i (timers s)),
                  armed_in SearchInputFire (remove_at i (timers s)))) by reflexivity.
  destruct cb; cbn [run_callback callback_eqb] in *.
  - eapply debounce_ok_of;
      [rewrite (checkIfMoreContentNeeded_frame _ debounce_frame); exact H0|..]; lia.
  - eapply debounce_ok_of; [rewrite (check_inner_frame _ debounce_frame); exact H0|..]; lia.
  - eapply debounce_ok_of; [rewrite (removeBanner_frame _ debounce_frame); exact H0|..]; lia.
  - eapply debounce_ok_of; [apply scroll_check_debounce|..]; unfold armed;
      change (timers s0) with (remove_at i (timers s));
      destruct (scrollTimeout s); simpl in *; lia.
  - eapply debounce_ok_of; [rewrite (addGhostCards_frame _ debounce_frame); exact H0|..]; lia.
  - eapply debounce_ok_of; [rewrite search_input_fire_debounce; exact H0|..]; lia.
Qed.

Lemma step_debounce (e : Event) (s : State) : debounce_ok s -> debounce_ok (step e s).
Proof.
  intros H. destruct e; cbn [step];
    try match goal with
        | |- context [if supportsAjax s then _ else _] => destruct (supportsAjax s)
        end; try exact H.
  - apply on_scroll_debounce, H.
  - apply on_resize_debounce, H.
  - apply (debounce_ok_same s); [apply performSearch_debounce|exact H].
  - apply on_input_debounce, H.
  - apply (debounce_ok_same s); [apply clearSearch_debounce|exact H].
  - apply (debounce_ok_same s); [apply on_pill_debounce|exact H].
  - apply (debounce_ok_same s); [apply filterByTag_debounce|exact H].
  - apply fire_debounce, H.
  - apply (debounce_ok_same s); [|exact H].
    apply (settle_frame _ debounce_frame); reflexivity.
Qed.

Lemma reachable_debounce_ok (d : Dom) (s : State) : reachable d s -> debounce_ok s.
Proof.
  induction 1 as [|e s _ IH]; [|apply step_debounce, IH].
  repeat apply conj; [reflexivity|apply Nat.le_0_l|apply Nat.le_0_l].
Qed.

(** X22: the debounces hold in every state the script reaches.  The
    scroll flag is up exactly while one scroll check is armed, and never
    more than one resize re-pad and one live-search timer are armed,
    whatever the sequence of events. *)
Theorem debounce_invariant (d : Dom) (es : list Event) :
  let s := run es (boot d) in
  armed ScrollCheck s = (if scrollTimeout s then 1 else 0)
  /\ armed ResizeFill s <= 1
  /\ armed SearchInputFire s <= 1.
Proof. exact (reachable_debounce_ok d _ (run_reachable d es)). Qed.



End Debounce.

(** ** Paging of the search stream *)

(** X24: the paging cursors are sound in every state the script reaches:
    the listing cursor is at least 1, every search request on its way
    asks for a page >= 1, and once [window.hasNext] has been written
    [window.currentPage] holds a page number >= 1 (so that
    [window.currentPage + 1] is never [NaN] when more results are
    announced). *)
Theorem cursors_invariant (d : Dom) (es : list Event) :
  let s := run es (boot d) in
  1 <= page_num s
  /\ (hasNext s <> None -> exists c, currentPage s = Some c /\ 1 <= c)
  /\ Forall page_ok (pending s).
Proof. exact (reachable_cursors_ok d _ (run_reachable d es)). Qed.



(** The events that carry no user request neither send a request nor
    re-arm the search stream once it is exhausted. *)
Lemma passive_step_exhausted (e : Event) (s : State) :
  passive e = true ->
  isSearchMode s = true -> has_more s = false -> armed SearchInputFire s = 0%nat ->
  requests (step e s) = requests s /\ pending (step e s) = pending s
  /\ isSearchMode (step e s) = true /\ has_more (step e s) = false
  /\ armed SearchInputFire (step e s) = 0%nat.
Proof.
  intros He Hmode Hmore Harmed. destruct e; try discriminate; cbn [step].
  - unfold on_scroll. destruct (scrollTimeout s); [auto|].
    repeat apply conj; try assumption; try reflexivity.
    unfold armed in *. cbn. rewrite armed_in_app, Harmed. reflexivity.
  - repeat apply conj; try assumption; try reflexivity.
    unfold armed, on_resize in *. cbn.
    rewrite armed_in_app, armed_in_kept by discriminate. rewrite Harmed. reflexivity.
  - auto.
  - unfold fire. destruct (nth_error (timers s) i) as [[ms cb]|] eqn:E; [|auto].
    pose proof (armed_in_remove_at SearchInputFire _ i ms cb E) as Hcount.
    unfold armed in Harmed. rewrite Harmed in Hcount.
    set (s0 := set_timers (remove_at i (timers s)) s).
    assert (H0 : armed SearchInputFire s0 = 0%nat).
    { unfold armed. cbn. destruct (callback_eqb cb SearchInputFire); simpl in Hcount; lia. }
    destruct cb; cbn [run_callback callback_eqb] in *; try discriminate.
    + repeat apply conj; try assumption; try reflexivity.
      unfold armed in *. cbn. rewrite armed_in_app. cbn in H0. rewrite H0. reflexivity.
    + unfold check_inner. replace (has_more s0) with false by (symmetry; exact Hmore).
      rewrite andb_false_r. cbn. auto.
    + unfold removeBanner. destruct (postList (dom s0)); auto.
    + unfold scroll_check. cbn. rewrite Hmode.
      replace (has_more (set_scrollTimeout false s0)) with false by (symmetry; exact Hmore).
      cbn. destruct (_ >=? _); auto.
    + destruct (postList (dom s0)) as [kids|] eqn:Ek.
      * rewrite (addGhostCards_postList s0 kids Ek). auto.
      * rewrite (addGhostCards_absent s0 Ek). auto.
Qed.

(** X26: an exhausted search stays exhausted.  In search mode, once
    [window.hasNext] is falsy and no live-search timer is armed, no
    sequence of scrolls, resizes, new layouts and expiring timers sends a
    request: the sent requests and the pending fetches stay as they are. *)
Theorem exhausted_search_is_not_fetched (es : list Event) (s : State) :
  isSearchMode s = true -> has_more s = false -> armed SearchInputFire s = 0%nat ->
  forallb passive es = true ->
  requests (run es s) = requests s /\ pending (run es s) = pending s
  /\ isSearchMode (run es s) = true /\ has_more (run es s) = false.
Proof.
  revert s. induction es as [|e es IH]; intros s Hmode Hmore Harmed Hes; [auto|].
  simpl in Hes. apply andb_prop in Hes. destruct Hes as [He Hes].
  destruct (passive_step_exhausted e s He Hmode Hmore Harmed) as (Hr & Hp & Hm & Hh & Ha).
  change (run (e :: es) s) with (run es (step e s)).
  destruct (IH (step e s) Hm Hh Ha Hes) as (Hr' & Hp' & Hm' & Hh').
  rewrite Hr', Hp'. auto.
Qed.

(** The theorem after a tag search whose only page has come in: the user
    scrolls at the end of the document, the checks run, the window is
    resized. *)
Lemma exhausted_search_is_not_fetched_witness :
  let s := run [ClickTag "rust"; Settle 0 (FetchResponse 200);
                Settle 0 (JsonValue (JsonObject Sample.hits))] Sample.loaded in
  let es := [Scroll; Fire 1; Fire 0; Fire 0; Resize; Fire 0] in
  hasNext s = Some false
  /\ timers (run es s) = []
  /\ requests (run es s) = requests s.
Proof.
  cbv zeta. split; [vm_compute; reflexivity|]. split; [vm_compute; reflexivity|].
  apply (exhausted_search_is_not_fetched [Scroll; Fire 1; Fire 0; Fire 0; Resize; Fire 0]);
    vm_compute; reflexivity.
Defined.

(** ** The error banner *)

Section Banners.

Local Open Scope nat_scope.

Lemma banner_below_mono (a b : nat) (n : Node) :
  a <= b -> banner_below a n -> banner_below b n.
Proof. destruct n; simpl; auto. lia. Qed.

Lemma banners_ok_same (s s' : State) :
  postList (dom s') = postList (dom s) -> nextId s' = nextId s ->
  banners_ok s -> banners_ok s'.
Proof. unfold banners_ok. now intros -> ->. Qed.

Lemma banners_ok_list (l : list Node) (s : State) :
  Forall (banner_below (nextId s)) l -> banners_ok (set_postList (Some l) s).
Proof. intros H. exact H. Qed.

Lemma Forall_below_filter (b : nat) (f : Node -> bool) (l : list Node) :
  Forall (banner_below b) l -> Forall (banner_below b) (filter f l).
Proof.
  rewrite !Forall_forall. intros H x Hx. apply filter_In in Hx. apply H, Hx.
Qed.

Lemma Forall_below_ghosts (b n : nat) : Forall (banner_below b) (repeat GhostCard n).
Proof. apply Forall_forall. intros x Hx. apply repeat_spec in Hx. now subst. Qed.

Lemma Forall_below_cards (b : nat) (posts : list (option Post)) :
  Forall (banner_below b) (map createRegularPost posts).
Proof.
  apply Forall_forall. intros x Hx. apply in_map_iff in Hx.
  destruct Hx as ([p|] & <- & _); exact I.
Qed.

Lemma showErrorMessage_banners (m : string) (s : State) :
  banners_ok s -> banners_ok (showErrorMessage m s).
Proof.
  unfold banners_ok, showErrorMessage, appendChild, setTimeout. cbn.
  destruct (postList (dom s)) as [kids|] eqn:E; cbn; [|now rewrite E].
  intros H. apply Forall_app. split.
  - eapply Forall_impl; [|exact H]. intros n. apply banner_below_mono. lia.
  - constructor; [simpl; lia|constructor].
Qed.

Lemma removeBanner_banners (id : nat) (s : State) :
  banners_ok s -> banners_ok (removeBanner id s).
Proof.
  unfold banners_ok, removeBanner. destruct (postList (dom s)) as [kids|] eqn:E; cbn.
  - apply Forall_below_filter.
  - now rewrite E.
Qed.

Lemma addGhostCards_banners (s : State) : banners_ok s -> banners_ok (addGhostCards s).
Proof.
  intros H. destruct (postList (dom s)) as [kids|] eqn:E.
  - rewrite (addGhostCards_postList s kids E). apply banners_ok_list.
    unfold banners_ok in H. rewrite E in H.
    apply Forall_app. split; [apply Forall_below_filter, H|apply Forall_below_ghosts].
  - now rewrite (addGhostCards_absent s E).
Qed.

Lemma forEach_regular_banners (posts : list (option Post)) (s : State) :
  banners_ok s -> banners_ok (forEach_regular posts s).
Proof.
  intros H. destruct (postList (dom s)) as [kids|] eqn:E.
  - rewrite (forEach_regular_postList posts s kids E). apply banners_ok_list.
    unfold banners_ok in H. rewrite E in H.
    apply Forall_app. split; [exact H|apply Forall_below_cards].
  - now rewrite (forEach_regular_absent posts s E).
Qed.

Lemma createFeaturedPost_banners (post : option Post) (i : Z) (s : State) :
  banners_ok s -> banners_ok (createFeaturedPost post i s).
Proof.
  intros H. unfold createFeaturedPost.
  destruct post, (featured (dom s)); auto using showErrorMessage_banners.
Qed.

Lemma forEach_featured_banners (posts : list (option Post)) :
  forall (i : Z) (s : State), banners_ok s -> banners_ok (forEach_featured posts i s).
Proof.
  induction posts as [|post rest IH]; intros i s H; simpl; [exact H|].
  apply IH, createFeaturedPost_banners, H.
Qed.

Lemma set_postList_banners (l : list Node) (s : State) :
  Forall (fun n => banner_id n = None) l -> banners_ok (set_postList (Some l) s).
Proof.
  intros H. apply banners_ok_list. eapply Forall_impl; [|exact H].
  intros [] Hn; try exact I. discriminate.
Qed.

Create HintDb banners.

#[local] Hint Resolve showErrorMessage_banners removeBanner_banners addGhostCards_banners
  forEach_regular_banners forEach_featured_banners : banners.

#[local] Hint Extern 1 (banners_ok (set_postList (Some _) _)) =>
  apply set_postList_banners; repeat constructor : banners.

#[local] Hint Extern 3 (banners_ok (?f _ ?s)) =>
  apply (banners_ok_same s); [reflexivity|reflexivity|] : banners.

Ltac keep f := intros; unfold f; cbv zeta; split_tests; auto 30 with banners.

Lemma render_listing_banners data s : banners_ok s -> banners_ok (render_listing data s).
Proof. keep render_listing. Qed.

Lemma showSearchError_banners s : banners_ok s -> banners_ok (showSearchError s).
Proof. keep showSearchError. Qed.

Lemma displaySearchResults_banners posts s :
  banners_ok s -> banners_ok (displaySearchResults posts s).
Proof.
  keep displaySearchResults. apply showSearchError_banners. assumption.
Qed.

Lemma appendSearchResults_banners posts s :
  banners_ok s -> banners_ok (appendSearchResults posts s).
Proof. keep appendSearchResults. Qed.

Lemma updateSearchStatus_banners n q s :
  banners_ok s -> banners_ok (updateSearchStatus n q s).
Proof. keep updateSearchStatus. Qed.

Lemma clear_containers_banners s : banners_ok s -> banners_ok (clear_containers s).
Proof. keep clear_containers. Qed.

Lemma set_title_banners v s : banners_ok s -> banners_ok (set_title v s).
Proof. keep set_title. Qed.

#[local] Hint Resolve render_listing_banners showSearchError_banners
  displaySearchResults_banners appendSearchResults_banners updateSearchStatus_banners
  clear_containers_banners set_title_banners : banners.

Lemma loadImages_banners s : banners_ok s -> banners_ok (loadImages s).
Proof. keep loadImages. Qed.

Lemma loadImages_rejected_banners s : banners_ok s -> banners_ok (loadImages_rejected s).
Proof.
  intros H. unfold loadImages_rejected, loadImages_finally, loadImages_catch.
  auto 10 with banners.
Qed.

Lemma loadImages_response_banners status s :
  banners_ok s -> banners_ok (loadImages_response status s).
Proof.
  intros H. unfold loadImages_response, loadImages_finally, loadImages_catch.
  destruct (response_ok status); auto 10 with banners.
Qed.

Lemma loadImages_data_banners d s : banners_ok s -> banners_ok (loadImages_data d s).
Proof.
  intros H. unfold loadImages_data, loadImages_finally, loadImages_catch. cbv zeta.
  split_tests; auto 10 with banners.
Qed.

Lemma loadSearchResults_banners query page s :
  banners_ok s -> banners_ok (loadSearchResults query page s).
Proof.
  intros H. unfold loadSearchResults, loadSearchResults_run, loadSearchResults_try, fetch.
  cbv zeta. destruct (coerce_query query) as [q|]; cbn [completed]; auto 10 with banners.
Qed.

Lemma search_failed_banners s : banners_ok s -> banners_ok (search_failed s).
Proof. intros H. unfold search_failed. auto with banners. Qed.

Lemma search_response_banners status q p s :
  banners_ok s -> banners_ok (search_response status q p s).
Proof.
  intros H. unfold search_response.
  destruct (response_ok status); auto using search_failed_banners with banners.
Qed.

Lemma search_data_banners d q p s : banners_ok s -> banners_ok (search_data d q p s).
Proof.
  intros H. unfold search_data. cbv zeta.
  destruct d as [|data]; [apply search_failed_banners, H|].
  destruct (p =? 1)%Z; auto 10 with banners.
Qed.

#[local] Hint Resolve loadImages_banners loadSearchResults_banners : banners.

Lemma performSearch_banners query s : banners_ok s -> banners_ok (performSearch query s).
Proof. keep performSearch. Qed.

Lemma filterByTag_banners tagName s : banners_ok s -> banners_ok (filterByTag tagName s).
Proof. keep filterByTag. Qed.

Lemma clearSearch_banners s : banners_ok s -> banners_ok (clearSearch s).
Proof. keep clearSearch. Qed.

Lemma check_inner_banners s : banners_ok s -> banners_ok (check_inner s).
Proof. keep check_inner. Qed.

Lemma scroll_check_banners s : banners_ok s -> banners_ok (scroll_check s).
Proof. keep scroll_check. Qed.

Lemma search_input_fire_banners s : banners_ok s -> banners_ok (search_input_fire s).
Proof. keep search_input_fire. apply performSearch_banners. assumption. Qed.

Lemma run_callback_banners cb s : banners_ok s -> banners_ok (run_callback cb s).
Proof.
  intros H. destruct cb; cbn [run_callback];
    auto using check_inner_banners, scroll_check_banners, search_input_fire_banners
      with banners.
Qed.

Lemma step_banners e s : banners_ok s -> banners_ok (step e s).
Proof.
  intros H. destruct e; cbn [step];
    try match goal with
        | |- context [if supportsAjax s then _ else _] => destruct (supportsAjax s)
        end; try exact H.
  - keep on_scroll.
  - apply performSearch_banners, H.
  - keep on_input.
  - apply clearSearch_banners, H.
  - unfold on_pill. split_tests; auto using clearSearch_banners, filterByTag_banners.
  - apply filterByTag_banners, H.
  - unfold fire. destruct (nth_error (timers s) i) as [[ms cb]|]; [|exact H].
    apply run_callback_banners. auto with banners.
  - unfold settle. cbv zeta. destruct (nth_error (pending s) i) as [k|]; [|exact H].
    assert (H' : banners_ok (set_pending (remove_at i (pending s)) s)) by auto with banners.
    destruct k, o; try exact H;
      auto using loadImages_rejected_banners, loadImages_response_banners,
        loadImages_data_banners, search_failed_banners, search_response_banners,
        search_data_banners.
Qed.

Lemma reachable_banners_ok (d : Dom) (s : State) :
  (forall kids, postList d = Some kids -> Forall (fun n => banner_id n = None) kids) ->
  reachable d s -> banners_ok s.
Proof.
  intros Hd. induction 1 as [|e s _ IH]; [|apply step_banners, IH].
  unfold boot. apply (banners_ok_same (loadImages (initial d))); [reflexivity|reflexivity|].
  apply loadImages_banners. unfold banners_ok, initial. cbn.
  destruct (postList d) as [kids|]; [|trivial].
  eapply Forall_impl; [|exact (Hd kids eq_refl)].
  intros [] Hn; try exact I. discriminate.
Qed.

(** X27: the error banner comes and goes alone.  On a page served
    without banners, in any state the script reaches, [showErrorMessage]
    appends one banner to #post-list and arms its 5 s removal; when that
    timer runs the post list is exactly what it was before the banner,
    and a removal whose banner is no longer in the list (the list was
    rewritten meanwhile) changes nothing. *)
Theorem banner_round_trip (d : Dom) (es : list Event) (m : string) (kids : list Node) :
  (forall kids0, postList d = Some kids0 -> Forall (fun n => banner_id n = None) kids0) ->
  let s := run es (boot d) in
  postList (dom s) = Some kids ->
  let s1 := showErrorMessage m s in
  postList (dom s1) = Some (kids ++ [ErrorBanner (nextId s) m])
  /\ timers s1 = timers s ++ [(5000%Z, RemoveBanner (nextId s))]
  /\ postList (dom (run_callback (RemoveBanner (nextId s)) s1)) = Some kids
  /\ (forall id, existsb (is_banner id) kids = false ->
        postList (dom (removeBanner id s)) = Some kids).
Proof.
  intros Hd. cbv zeta.
  pose proof (reachable_banners_ok d _ Hd (run_reachable d es)) as Hok.
  set (s := run es (boot d)) in *. clearbody s. intros Hkids.
  unfold banners_ok in Hok. rewrite Hkids in Hok.
  assert (Hkeep : forall id, nextId s <= id ->
                    filter (fun n => negb (is_banner id n)) kids = kids).
  { intros id Hid. clear Hkids. induction kids as [|n kids IH]; [reflexivity|].
    inversion Hok as [|? ? Hn Hrest]; subst. simpl. rewrite (IH Hrest).
    destruct n; simpl in *; try reflexivity.
    destruct (Nat.eqb_spec id0 id); [lia|reflexivity]. }
  unfold showErrorMessage, appendChild, setTimeout, removeBanner. cbn.
  rewrite Hkids. cbn. split; [reflexivity|]. split; [reflexivity|]. split.
  - rewrite filter_app, (Hkeep _ (Nat.le_refl _)). simpl.
    rewrite Nat.eqb_refl. simpl. now rewrite app_nil_r.
  - intros id Hid. f_equal. clear Hok Hkeep Hkids.
    induction kids as [|n kids IH]; [reflexivity|].
    simpl in *. apply orb_false_elim in Hid. destruct Hid as [Hn Hrest].
    now rewrite Hn, (IH Hrest).
Qed.

(** The theorem while the body of the first listing page is awaited. *)
Lemma banner_round_trip_witness :
  let s := run [Settle 0 (FetchResponse 200)] (boot Sample.page) in
  postList (dom (run_callback (RemoveBanner (nextId s)) (showErrorMessage "oops" s)))
  = Some [].
Proof.
  cbv zeta.
  refine (proj1 (proj2 (proj2
    (banner_round_trip Sample.page [Settle 0 (FetchResponse 200)] "oops" [] _ eq_refl)))).
  intros kids0 [= <-]. constructor.
Defined.

End Banners.

(** ** The resize listener *)



(** ** The two streams *)

Lemma search_cursors_frame : Frame (fun s => (hasNext s, currentPage s)).
Proof. split; reflexivity. Qed.

(** X29: the listing stream keeps no record in the search cursors.
    However a promise of [loadImages] settles (rejected, any status, any
    body), [window.hasNext] and [window.currentPage] are what they were;
    a page of the listing that says [has_next: false] does not lower
    [window.hasNext]. *)
Theorem listing_leaves_search_cursors (i : nat) (k : Pending) (o : Outcome) (s : State) :
  nth_error (pending s) i = Some k -> k = LFetch \/ k = LJson ->
  hasNext (settle i o s) = hasNext s /\ currentPage (settle i o s) = currentPage s.
Proof.
  intros Hk Hlisting.
  assert (H : (hasNext (settle i o s), currentPage (settle i o s))
              = (hasNext s, currentPage s)).
  { unfold settle. rewrite Hk. cbv zeta.
    destruct Hlisting as [-> | ->]; destruct o; try reflexivity.
    - now rewrite (loadImages_rejected_frame _ search_cursors_frame).
    - now rewrite (loadImages_response_frame _ search_cursors_frame).
    - now rewrite (loadImages_rejected_frame _ search_cursors_frame).
    - now rewrite (loadImages_data_frame _ search_cursors_frame) by reflexivity. }
  injection H as H1 H2. now split.
Qed.

(** The theorem when the last page of the listing arrives after a cleared
    search. *)
Lemma listing_leaves_search_cursors_witness :
  let s := run [ClickClear; Settle 0 (FetchResponse 200)] Sample.loaded in
  hasNext s = Some true
  /\ hasNext (settle 0 (JsonValue (JsonObject Sample.last_page)) s) = Some true.
Proof.
  cbv zeta. split; [vm_compute; reflexivity|].
  rewrite (proj1 (listing_leaves_search_cursors 0 LJson
                    (JsonValue (JsonObject Sample.last_page))
                    (run [ClickClear; Settle 0 (FetchResponse 200)] Sample.loaded)
                    eq_refl (or_intror eq_refl))).
  vm_compute. reflexivity.
Defined.
